(** * Resend MCP server: the JSON-RPC dispatcher of [http-bridge-jsonrpc.ts]

    A shallow embedding of the request-dispatch layer of the Resend MCP
    HTTP server ([McpJsonRpcServer]) and of the [send-email] handler of the
    SSE variant, followed by the properties of the specification that were
    checked against it.

    JavaScript values are modelled by the inductive type [JsVal]; the
    provider ([resend.emails.send], [resend.audiences.list]) is a parameter
    of the development and every call made to it is recorded in a log that
    is threaded through the handlers. *)

From Stdlib Require Import ZArith String List Ascii Bool Lia DecimalString.
Import ListNotations.
Open Scope string_scope.

Set Warnings "-register-all".

(* ================================================================= *)
(** ** JavaScript values *)

(** The values that reach the dispatcher are the ones [express.json()]
    produces, plus [undefined] for the properties an object does not have.
    A number [JNum n] is the Number value that the integer literal [n]
    denotes, the double nearest to [n] (the program compares no two numbers);
    numbers with a fraction are outside the model;
    strings are sequences of bytes, UTF-8 for text beyond ASCII; an object is
    the list of its own properties in enumeration order. *)
Inductive JsVal : Type :=
| JUndefined
| JNull
| JBool (b : bool)
| JNum (n : Z)
| JStr (s : string)
| JArr (elems : list JsVal)
| JObj (props : list (string * JsVal)).

Module Js.

(** The double quote character. *)
Definition dquote : ascii := ascii_of_nat 34.

Fixpoint join (sep : string) (l : list string) : string :=
  match l with
  | [] => EmptyString
  | [x] => x
  | x :: r => x ++ sep ++ join sep r
  end.

(** Own-property lookup in a property list. *)
Fixpoint lookup (k : string) (ps : list (string * JsVal)) : option JsVal :=
  match ps with
  | [] => None
  | (k', v) :: r => if String.eqb k k' then Some v else lookup k r
  end.

Definition hasOwn (v : JsVal) (k : string) : bool :=
  match v with
  | JObj ps => match lookup k ps with Some _ => true | None => false end
  | _ => false
  end.

(** [v.k] (or the binding a destructuring pattern gives to [k]) for a [v]
    that is neither [undefined] nor [null].  The names read by the program
    ([name], [arguments], [from], [to], [error], ...) are on none of the
    prototypes of plain objects, arrays, strings, numbers and booleans, so
    they are [undefined] unless they are own properties of an object. *)
Definition prop (v : JsVal) (k : string) : JsVal :=
  match v with
  | JObj ps => match lookup k ps with Some x => x | None => JUndefined end
  | _ => JUndefined
  end.

(** [o.k = x] for a key the object literal may or may not have yet. *)
Fixpoint assign (ps : list (string * JsVal)) (k : string) (x : JsVal)
  : list (string * JsVal) :=
  match ps with
  | [] => [(k, x)]
  | (k', v) :: r =>
      if String.eqb k k' then (k', x) :: r else (k', v) :: assign r k x
  end.

Definition set (o : JsVal) (k : string) (x : JsVal) : JsVal :=
  match o with
  | JObj ps => JObj (assign ps k x)
  | _ => o
  end.

Definition nullish (v : JsVal) : bool :=
  match v with
  | JUndefined | JNull => true
  | _ => false
  end.

(** ToBoolean. *)
Definition truthy (v : JsVal) : bool :=
  match v with
  | JUndefined | JNull => false
  | JBool b => b
  | JNum n => negb (n =? 0)%Z
  | JStr s => negb (String.eqb s EmptyString)
  | JArr _ | JObj _ => true
  end.

(** [a ?? b] *)
Definition coalesce (a b : JsVal) : JsVal :=
  if nullish a then b else a.

(** [a || b] *)
Definition logical_or (a b : JsVal) : JsVal :=
  if truthy a then a else b.

(** [v === lit] for a string literal [lit] *)
Definition is_string (v : JsVal) (lit : string) : bool :=
  match v with
  | JStr s => String.eqb s lit
  | _ => false
  end.

(** The Number value nearest to the positive integer [a] (round to nearest,
    ties to even), as an integer; [None] is [Infinity]. *)
Definition round_to_double (a : Z) : option Z :=
  let bits := (Z.log2 a + 1)%Z in
  if (bits <=? 53)%Z then Some a
  else
    let shift := (bits - 53)%Z in
    let q := (a / 2 ^ shift)%Z in
    let r := (a - q * 2 ^ shift)%Z in
    let half := (2 ^ (shift - 1))%Z in
    let q' :=
      if (half <? r)%Z || ((r =? half)%Z && Z.odd q) then (q + 1)%Z else q in
    let x := (q' * 2 ^ shift)%Z in
    if (2 ^ 1024 <=? x)%Z then None else Some x.

(** The decimal digits of an integer. *)
Definition decimal (a : Z) : string := NilZero.string_of_int (Z.to_int a).

(** The integer [c] denotes the Number value [x]. *)
Definition rounds_to (x c : Z) : bool :=
  match round_to_double c with
  | Some y => (y =? x)%Z
  | None => false
  end.

(** The multiple of [10^(N-k)] nearest to [x] among those that denote [x]. *)
Definition candidate (x : Z) (N k : nat) : option Z :=
  let scale := (10 ^ Z.of_nat (N - k))%Z in
  let s := (x / scale)%Z in
  let lo := (s * scale)%Z in
  let hi := (lo + scale)%Z in
  let lo_first :=
    (x - lo <? hi - x)%Z || ((x - lo =? hi - x)%Z && Z.even s) in
  if lo_first then
    if rounds_to x lo then Some lo else if rounds_to x hi then Some hi else None
  else
    if rounds_to x hi then Some hi else if rounds_to x lo then Some lo else None.

(** The first candidate found with [k] digits, for [k] in [ks]; [x] itself
    otherwise. *)
Fixpoint shortest (x : Z) (N : nat) (ks : list nat) : Z :=
  match ks with
  | [] => x
  | k :: r =>
      match (if Nat.leb k N then candidate x N k else None) with
      | Some c => c
      | None => shortest x N r
      end
  end.

(** A digit string without its trailing zeros. *)
Fixpoint strip_zeros (s : string) : string :=
  match s with
  | EmptyString => EmptyString
  | String c r =>
      match strip_zeros r with
      | EmptyString =>
          if Ascii.eqb c "0"%char then EmptyString else String c EmptyString
      | r' => String c r'
      end
  end.

(** The digits of a positive Number value [x]. *)
Definition print_positive (x : Z) : string :=
  let c := shortest x (String.length (decimal x)) (seq 1 17) in
  let ds := decimal c in
  let n := String.length ds in
  if Nat.leb n 21 then ds
  else
    match strip_zeros ds with
    | String d EmptyString => String d ("e+" ++ decimal (Z.of_nat (n - 1)))
    | String d r => String d ("." ++ r ++ "e+" ++ decimal (Z.of_nat (n - 1)))
    | EmptyString => ds
    end.

(** Number::toString: the fewest digits that denote the same Number value,
    written out up to 21 digits and in exponent form beyond. *)
Definition Number_toString (n : Z) : string :=
  if (n =? 0)%Z then "0"
  else
    match round_to_double (Z.abs n) with
    | None => if (n <? 0)%Z then "-Infinity" else "Infinity"
    | Some x => if (n <? 0)%Z then "-" ++ print_positive x else print_positive x
    end.

(** The number as [JSON.stringify] writes it: [null] when it is not finite. *)
Definition Number_serialize (n : Z) : string :=
  match round_to_double (Z.abs n) with
  | None => "null"
  | Some _ => Number_toString n
  end.

(** *** JSON.stringify *)

Definition hex_digit (n : nat) : ascii :=
  ascii_of_nat (if Nat.ltb n 10 then 48 + n else 87 + n).

Definition escape_char (c : ascii) : string :=
  let n := nat_of_ascii c in
  if Nat.eqb n 8 then "\b"
  else if Nat.eqb n 9 then "\t"
  else if Nat.eqb n 10 then "\n"
  else if Nat.eqb n 12 then "\f"
  else if Nat.eqb n 13 then "\r"
  else if Nat.eqb n 34 then String "\" (String dquote EmptyString)
  else if Nat.eqb n 92 then "\\"
  else if Nat.ltb n 32 then
    "\u00" ++ String (hex_digit (n / 16)) (String (hex_digit (n mod 16)) EmptyString)
  else String c EmptyString.

Fixpoint escape (s : string) : string :=
  match s with
  | EmptyString => EmptyString
  | String c r => escape_char c ++ escape r
  end.

Definition QuoteJSONString (s : string) : string :=
  String dquote (escape s ++ String dquote EmptyString).

(** [None] is the [undefined] that [JSON.stringify(undefined)] returns.
    In an array an [undefined] element prints as [null]; in an object a
    property whose value is [undefined] is left out. *)
Fixpoint JSON_stringify (v : JsVal) : option string :=
  match v with
  | JUndefined => None
  | JNull => Some "null"
  | JBool true => Some "true"
  | JBool false => Some "false"
  | JNum n => Some (Number_serialize n)
  | JStr s => Some (QuoteJSONString s)
  | JArr l =>
      let fix elements (l : list JsVal) : list string :=
        match l with
        | [] => []
        | x :: r =>
            match JSON_stringify x with
            | Some s => s
            | None => "null"
            end :: elements r
        end in
      Some ("[" ++ join "," (elements l) ++ "]")
  | JObj ps =>
      let fix members (ps : list (string * JsVal)) : list string :=
        match ps with
        | [] => []
        | (k, x) :: r =>
            match JSON_stringify x with
            | Some s => (QuoteJSONString k ++ ":" ++ s) :: members r
            | None => members r
            end
        end in
      Some ("{" ++ join "," (members ps) ++ "}")
  end.

(** A value spliced into a template literal after [JSON.stringify]. *)
Definition interpolate (o : option string) : string :=
  match o with
  | Some s => s
  | None => "undefined"
  end.

(** *** ToString, as a template literal applies it

    An array prints through [Array.prototype.join], where [undefined] and
    [null] elements print as the empty string.  A plain object prints as
    [[object Object]], unless an own property shadows
    [Object.prototype.toString]: a value read from JSON is never callable,
    so neither [toString] nor [valueOf] yields a primitive then and the
    conversion raises a TypeError ([None] here). *)
Fixpoint ToString (v : JsVal) : option string :=
  match v with
  | JUndefined => Some "undefined"
  | JNull => Some "null"
  | JBool true => Some "true"
  | JBool false => Some "false"
  | JNum n => Some (Number_toString n)
  | JStr s => Some s
  | JArr l =>
      let fix elements (l : list JsVal) : option (list string) :=
        match l with
        | [] => Some []
        | x :: r =>
            match (match x with
                   | JUndefined | JNull => Some EmptyString
                   | _ => ToString x
                   end), elements r with
            | Some s, Some ss => Some (s :: ss)
            | _, _ => None
            end
        end in
      match elements l with
      | Some ss => Some (join "," ss)
      | None => None
      end
  | JObj ps =>
      match lookup "toString" ps with
      | Some _ => None
      | None => Some "[object Object]"
      end
  end.

End Js.

(* ================================================================= *)
(** ** Exceptions, the provider and the call log *)

(** What the runtime raises on its own. *)
Inductive TypeErrorCause : Type :=
| NullishAccess (v : JsVal) (k : string)   (* property [k] of undefined/null *)
| NotPrimitive (v : JsVal).                (* ToString of an object failed *)

(** What is thrown and caught: an [Error] made by [new Error(message)], by
    the program or by the provider; a [TypeError] of the runtime; or any other
    value, as a promise may be rejected with anything ([null], a string, a
    plain object). *)
Inductive Thrown : Type :=
| NewError (message : string)
| TypeError (cause : TypeErrorCause)
| Value (v : JsVal).

Inductive Completion (A : Type) : Type :=
| Normal (a : A)
| Abrupt (e : Thrown).
Arguments Normal {A} a.
Arguments Abrupt {A} e.

(** One entry per call made to the provider, in the order of the calls. *)
Inductive ProviderCall : Type :=
| EmailsSend (emailRequest : JsVal)
| AudiencesList.

(** The [resend] client: what awaiting each of its two operations gives. *)
Record Resend : Type := {
  emails_send : JsVal -> Completion JsVal;
  audiences_list : Completion JsVal
}.

(** A computation reads and extends the log of provider calls and either
    completes normally or throws. *)
Definition M (A : Type) : Type :=
  list ProviderCall -> Completion A * list ProviderCall.

Definition ret {A} (a : A) : M A := fun log => (Normal a, log).

Definition throw {A} (e : Thrown) : M A := fun log => (Abrupt e, log).

Definition bind {A B} (m : M A) (f : A -> M B) : M B :=
  fun log =>
    match m log with
    | (Normal a, log') => f a log'
    | (Abrupt e, log') => (Abrupt e, log')
    end.

(** [try { m } catch (error) { handler }] *)
Definition try_catch {A} (m : M A) (handler : Thrown -> M A) : M A :=
  fun log =>
    match m log with
    | (Normal a, log') => (Normal a, log')
    | (Abrupt e, log') => handler e log'
    end.

Declare Scope js_scope.
Delimit Scope js_scope with js.
Notation "x <- m ;; k" := (bind m (fun x => k))
  (at level 61, m at next level, right associativity) : js_scope.
Notation "m ;;; k" := (bind m (fun _ => k))
  (at level 61, right associativity) : js_scope.

(** Reading a property of, or destructuring, [undefined] or [null] throws. *)
Definition RequireObjectCoercible (v : JsVal) (k : string) : M unit :=
  if Js.nullish v then throw (TypeError (NullishAccess v k)) else ret tt.

(** [v.k] *)
Definition member (v : JsVal) (k : string) : M JsVal :=
  (RequireObjectCoercible v k ;;; ret (Js.prop v k))%js.

(** [`${v}`] *)
Definition template (v : JsVal) : M string :=
  match Js.ToString v with
  | Some s => ret s
  | None => throw (TypeError (NotPrimitive v))
  end.

(* ================================================================= *)
(** ** Configuration read from the environment *)

(** The variables of [process.env] the module reads at load time; a
    variable is either unset or a string. *)
Record ProcessEnv : Type := {
  RESEND_API_KEY : option string;
  SENDER_EMAIL_ADDRESS : option string;
  REPLY_TO_EMAIL_ADDRESSES : option string
}.

Definition env_value (o : option string) : JsVal :=
  match o with
  | Some s => JStr s
  | None => JUndefined
  end.

(** [s.split(',')] *)
Fixpoint split_comma (s : string) : list string :=
  match s with
  | EmptyString => [EmptyString]
  | String c r =>
      if Ascii.eqb c ","%char then EmptyString :: split_comma r
      else
        match split_comma r with
        | h :: t => String c h :: t
        | [] => [String c EmptyString]
        end
  end.

(** [const apiKey = process.env.RESEND_API_KEY]; the process exits before it
    serves anything when the key is not truthy. *)
Definition apiKey (env : ProcessEnv) : JsVal :=
  env_value (RESEND_API_KEY env).

(** [const senderEmailAddress = process.env.SENDER_EMAIL_ADDRESS] *)
Definition senderEmailAddress (env : ProcessEnv) : JsVal :=
  env_value (SENDER_EMAIL_ADDRESS env).

(** [let replierEmailAddresses: string[] = []], replaced by the split of
    [REPLY_TO_EMAIL_ADDRESSES] when that variable is truthy. *)
Definition replierEmailAddresses (env : ProcessEnv) : list string :=
  if Js.truthy (env_value (REPLY_TO_EMAIL_ADDRESSES env)) then
    match REPLY_TO_EMAIL_ADDRESSES env with
    | Some s => split_comma s
    | None => []
    end
  else [].

Definition string_array (l : list string) : JsVal := JArr (map JStr l).

(* ================================================================= *)
(** ** The JSON-RPC server: [class McpJsonRpcServer] *)

Module McpJsonRpcServer.
Section Server.

Variable env : ProcessEnv.
Variable resend : Resend.
(** The text the runtime gives to the [message] of a TypeError. *)
Variable TypeError_message : TypeErrorCause -> string.

Local Open Scope js_scope.

(** [await resend.emails.send(emailRequest)] *)
Definition resend_emails_send (emailRequest : JsVal) : M JsVal :=
  fun log => (emails_send resend emailRequest, (log ++ [EmailsSend emailRequest])%list).

(** [await resend.audiences.list()] *)
Definition resend_audiences_list : M JsVal :=
  fun log => (audiences_list resend, (log ++ [AudiencesList])%list).

Definition handleInitialize (params : JsVal) : M JsVal :=
  ret (JObj [
    ("protocolVersion", JStr "2024-11-05");
    ("capabilities", JObj [("tools", JObj [])]);
    ("serverInfo", JObj [
      ("name", JStr "resend-email-service");
      ("version", JStr "1.0.0")])]).

Definition email_array_schema (description : string) : JsVal :=
  JObj [
    ("type", JStr "array");
    ("items", JObj [("type", JStr "string"); ("format", JStr "email")]);
    ("description", JStr description)].

Definition string_schema (description : string) : JsVal :=
  JObj [("type", JStr "string"); ("description", JStr description)].

Definition email_schema (description : string) : JsVal :=
  JObj [
    ("type", JStr "string");
    ("format", JStr "email");
    ("description", JStr description)].

(** The [properties] of the input schema of [send-email]; the two spreads
    come last. *)
Definition send_email_properties : list (string * JsVal) :=
  [ ("to", email_schema "Recipient email address");
    ("subject", string_schema "Email subject line");
    ("text", string_schema "Plain text email content");
    ("html", string_schema
       "HTML email content. When provided, the plain text argument MUST be provided as well.");
    ("cc", email_array_schema
       "Optional array of CC email addresses. You MUST ask the user for this parameter.");
    ("bcc", email_array_schema
       "Optional array of BCC email addresses. You MUST ask the user for this parameter.");
    ("scheduledAt", string_schema
       "Optional parameter to schedule the email. Uses natural language like 'tomorrow at 10am'.") ]
  ++ (if Js.truthy (senderEmailAddress env) then []
      else [("from", email_schema
               "Sender email address. You MUST ask the user for this parameter.")])
  ++ (if Nat.eqb (length (replierEmailAddresses env)) 0 then
        [("replyTo", email_array_schema
            "Optional email addresses for reply-to. You MUST ask the user for this parameter.")]
      else []).

Definition handleListTools : M JsVal :=
  ret (JObj [
    ("tools", JArr [
      JObj [
        ("name", JStr "send-email");
        ("description", JStr "Send an email using Resend");
        ("inputSchema", JObj [
          ("type", JStr "object");
          ("properties", JObj send_email_properties);
          ("required", JArr [JStr "to"; JStr "subject"; JStr "text"])])];
      JObj [
        ("name", JStr "list-audiences");
        ("description", JStr "List all audiences from Resend");
        ("inputSchema", JObj [
          ("type", JStr "object");
          ("properties", JObj [])])]])]).

(** [{ content: [{ type: "text", text }] }] *)
Definition text_content (text : string) : JsVal :=
  JObj [("content", JArr [JObj [("type", JStr "text"); ("text", JStr text)]])].

(** [if (v) emailRequest.k = v] *)
Definition set_if_truthy (emailRequest : JsVal) (k : string) (v : JsVal) : JsVal :=
  if Js.truthy v then Js.set emailRequest k v else emailRequest.

(** Lines 144-164: the arguments are destructured, the sender and the
    reply-to list are resolved and the [emailRequest] is assembled. *)
Definition build_emailRequest (args : JsVal) : M JsVal :=
  RequireObjectCoercible args "from" ;;;
  let from := Js.prop args "from" in
  let to := Js.prop args "to" in
  let subject := Js.prop args "subject" in
  let text := Js.prop args "text" in
  let html := Js.prop args "html" in
  let replyTo := Js.prop args "replyTo" in
  let scheduledAt := Js.prop args "scheduledAt" in
  let cc := Js.prop args "cc" in
  let bcc := Js.prop args "bcc" in
  let fromEmailAddress := Js.coalesce from (senderEmailAddress env) in
  let replyToEmailAddresses :=
    Js.coalesce replyTo (string_array (replierEmailAddresses env)) in
  if negb (Js.truthy fromEmailAddress) then
    throw (NewError "from argument must be provided.")
  else
    let emailRequest := JObj [
      ("to", to);
      ("subject", subject);
      ("text", text);
      ("from", fromEmailAddress);
      ("replyTo", replyToEmailAddresses)] in
    let emailRequest := set_if_truthy emailRequest "html" html in
    let emailRequest := set_if_truthy emailRequest "scheduledAt" scheduledAt in
    let emailRequest := set_if_truthy emailRequest "cc" cc in
    let emailRequest := set_if_truthy emailRequest "bcc" bcc in
    ret emailRequest.

(** Lines 168-179: what the handler makes of the provider's response. *)
Definition email_sent (response : JsVal) : M JsVal :=
  error <- member response "error" ;;
  if Js.truthy error then
    throw (NewError ("Email failed to send: "
                     ++ Js.interpolate (Js.JSON_stringify error)))
  else
    data <- member response "data" ;;
    ret (text_content ("Email sent successfully! "
                       ++ Js.interpolate (Js.JSON_stringify data))).

(** Lines 185-196. *)
Definition audiences_listed (response : JsVal) : M JsVal :=
  error <- member response "error" ;;
  if Js.truthy error then
    throw (NewError ("Failed to list audiences: "
                     ++ Js.interpolate (Js.JSON_stringify error)))
  else
    data <- member response "data" ;;
    ret (text_content ("Audiences found: "
                       ++ Js.interpolate (Js.JSON_stringify data))).

Definition handleCallTool (params : JsVal) : M JsVal :=
  RequireObjectCoercible params "name" ;;;
  let name := Js.prop params "name" in
  let args := Js.prop params "arguments" in
  if Js.is_string name "send-email" then
    emailRequest <- build_emailRequest args ;;
    response <- resend_emails_send emailRequest ;;
    email_sent response
  else if Js.is_string name "list-audiences" then
    response <- resend_audiences_list ;;
    audiences_listed response
  else
    shown <- template name ;;
    throw (NewError ("Unknown tool: " ++ shown)).

(** [error.message] of a caught value: a property read, which throws when
    the value is [undefined] or [null] and may give anything otherwise. *)
Definition message_of (error : Thrown) : M JsVal :=
  match error with
  | NewError message => ret (JStr message)
  | TypeError cause => ret (JStr (TypeError_message cause))
  | Value v => member v "message"
  end.

(** [{ jsonrpc: '2.0', result, id }] *)
Definition result_response (result id : JsVal) : JsVal :=
  JObj [("jsonrpc", JStr "2.0"); ("result", result); ("id", id)].

(** [{ jsonrpc: '2.0', error: { code, message }, id }] *)
Definition error_response (code : Z) (message id : JsVal) : JsVal :=
  JObj [
    ("jsonrpc", JStr "2.0");
    ("error", JObj [("code", JNum code); ("message", message)]);
    ("id", id)].

Definition handleRequest (request : JsVal) : M JsVal :=
  try_catch
    (method <- member request "method" ;;
     if Js.is_string method "initialize" then
       params <- member request "params" ;;
       result <- handleInitialize params ;;
       id <- member request "id" ;;
       ret (result_response result id)
     else if Js.is_string method "tools/list" then
       result <- handleListTools ;;
       id <- member request "id" ;;
       ret (result_response result id)
     else if Js.is_string method "tools/call" then
       params <- member request "params" ;;
       result <- handleCallTool params ;;
       id <- member request "id" ;;
       ret (result_response result id)
     else
       id <- member request "id" ;;
       ret (error_response (-32601) (JStr "Method not found") id))
    (fun error =>
       error_message <- message_of error ;;
       let message := Js.logical_or error_message (JStr "Internal error") in
       id <- member request "id" ;;
       ret (error_response (-32603) message id)).

End Server.
End McpJsonRpcServer.

(* ================================================================= *)
(** ** The SSE variant: the handler registered for [send-email] *)

Module SseServer.
Section Server.

Variable env : ProcessEnv.
Variable resend : Resend.

Local Open Scope js_scope.

Definition resend_emails_send (emailRequest : JsVal) : M JsVal :=
  fun log => (emails_send resend emailRequest, (log ++ [EmailsSend emailRequest])%list).

(** [typeof v !== 'string'] *)
Definition not_a_string (v : JsVal) : bool :=
  match v with
  | JStr _ => false
  | _ => true
  end.

(** [Array.isArray(v)] *)
Definition isArray (v : JsVal) : bool :=
  match v with
  | JArr _ => true
  | _ => false
  end.

(** The callback given to [server.tool('send-email', ...)], applied to the
    argument object the SDK hands it: first the part that assembles the
    [emailRequest] (lines 393-419 of the concatenated source). *)
Definition build_emailRequest (args : JsVal) : M JsVal :=
  RequireObjectCoercible args "from" ;;;
  let from := Js.prop args "from" in
  let to := Js.prop args "to" in
  let subject := Js.prop args "subject" in
  let text := Js.prop args "text" in
  let html := Js.prop args "html" in
  let replyTo := Js.prop args "replyTo" in
  let scheduledAt := Js.prop args "scheduledAt" in
  let cc := Js.prop args "cc" in
  let bcc := Js.prop args "bcc" in
  let fromEmailAddress := Js.coalesce from (senderEmailAddress env) in
  let replyToEmailAddresses :=
    Js.coalesce replyTo (string_array (replierEmailAddresses env)) in
  if not_a_string fromEmailAddress then
    throw (NewError "from argument must be provided.")
  else if not_a_string replyToEmailAddresses
          && negb (isArray replyToEmailAddresses) then
    throw (NewError "replyTo argument must be provided.")
  else
    let emailRequest := JObj [
      ("to", to);
      ("subject", subject);
      ("text", text);
      ("from", fromEmailAddress);
      ("replyTo", replyToEmailAddresses)] in
    let emailRequest := McpJsonRpcServer.set_if_truthy emailRequest "html" html in
    let emailRequest :=
      McpJsonRpcServer.set_if_truthy emailRequest "scheduledAt" scheduledAt in
    let emailRequest := McpJsonRpcServer.set_if_truthy emailRequest "cc" cc in
    let emailRequest := McpJsonRpcServer.set_if_truthy emailRequest "bcc" bcc in
    ret emailRequest.

Definition send_email (args : JsVal) : M JsVal :=
  emailRequest <- build_emailRequest args ;;
  response <- resend_emails_send emailRequest ;;
  McpJsonRpcServer.email_sent response.

Definition resend_audiences_list : M JsVal :=
  fun log => (audiences_list resend, (log ++ [AudiencesList])%list).

(** The callback given to [server.tool('list-audiences', ...)]; it takes no
    argument (lines 444-461 of the concatenated source). *)
Definition list_audiences : M JsVal :=
  response <- resend_audiences_list ;;
  McpJsonRpcServer.audiences_listed response.

End Server.
End SseServer.

(* ================================================================= *)
(** ** The HTTP routes of the JSON-RPC variant: [main] *)

Module HttpBridge.

(** What a route handler writes to [res]: the status and the JSON body. *)
Record HttpResponse : Type := {
  status : Z;
  body : JsVal
}.

(** [res.json(v)]: the status keeps its default, 200. *)
Definition res_json (v : JsVal) : HttpResponse :=
  {| status := 200; body := v |}.

(** [res.status(code).json(v)] *)
Definition res_status_json (code : Z) (v : JsVal) : HttpResponse :=
  {| status := code; body := v |}.

(** [app.get('/health', ...)] *)
Definition get_health : HttpResponse :=
  res_json (JObj [("status", JStr "ok"); ("service", JStr "resend-mcp-server")]).

(** [app.get('/mcp', ...)] *)
Definition get_mcp : HttpResponse :=
  res_status_json 405
    (JObj [
      ("jsonrpc", JStr "2.0");
      ("error", JObj [("code", JNum (-32000));
                      ("message", JStr "Method not allowed")]);
      ("id", JNull)]).

Section Routes.

Variable env : ProcessEnv.
Variable resend : Resend.
Variable TypeError_message : TypeErrorCause -> string.

Local Open Scope js_scope.

(** [app.post('/mcp', ...)], applied to [req.body]; the [console.error] of
    the [catch] block is left out. *)
Definition post_mcp (req_body : JsVal) : M HttpResponse :=
  try_catch
    (response <- McpJsonRpcServer.handleRequest env resend TypeError_message
                   req_body ;;
     ret (res_json response))
    (fun error =>
       ret (res_status_json 500
              (JObj [
                ("jsonrpc", JStr "2.0");
                ("error", JObj [("code", JNum (-32603));
                                ("message", JStr "Internal error")]);
                ("id", JNull)]))).

End Routes.
End HttpBridge.

(* ================================================================= *)
(** ** Vocabulary of the specification *)

Module Spec.

(** An environment variable configures a default when it is set to a
    non-empty string: this is the test of [if (process.env.X)] and of the
    [|| 'NOT SET'] of the start-up banner. *)
Definition configured (variable : option string) : bool :=
  match variable with
  | Some s => negb (String.eqb s EmptyString)
  | None => false
  end.

Definition is_undefined (v : JsVal) : bool :=
  match v with
  | JUndefined => true
  | _ => false
  end.

(** [interface JsonRpcRequest]: an object whose [jsonrpc] and [method] are
    strings and whose [id] is a string, a number or [null]; [params] is
    optional and of any type. *)
Definition is_JsonRpcRequest (request : JsVal) : bool :=
  match request with
  | JObj _ =>
      match Js.prop request "jsonrpc", Js.prop request "method",
            Js.prop request "id" with
      | JStr _, JStr _, (JStr _ | JNum _ | JNull) => true
      | _, _, _ => false
      end
  | _ => false
  end.

(** [{ code: number, message: string }] *)
Definition is_error_object (e : JsVal) : bool :=
  match e with
  | JObj _ =>
      match Js.prop e "code", Js.prop e "message" with
      | JNum _, JStr _ => true
      | _, _ => false
      end
  | _ => false
  end.

(** [interface JsonRpcResponse] with exactly one of [result] and [error]:
    the version is [2.0], the response has an [id], and either it has a
    [result] that is not [undefined] and no [error] property, or it has an
    [error] object and no [result] property. *)
Definition well_formed_response (response : JsVal) : bool :=
  Js.is_string (Js.prop response "jsonrpc") "2.0"
  && Js.hasOwn response "id"
  && match Js.hasOwn response "result", Js.hasOwn response "error" with
     | true, false => negb (is_undefined (Js.prop response "result"))
     | false, true => is_error_object (Js.prop response "error")
     | _, _ => false
     end.

(** The JSON-RPC error code of a response, when it carries an error. *)
Definition error_code (response : JsVal) : option Z :=
  match Js.prop (Js.prop response "error") "code" with
  | JNum code => Some code
  | _ => None
  end.

(** The value of [error.message] when it can be read. *)
Definition message (TypeError_message : TypeErrorCause -> string)
    (error : Thrown) : JsVal :=
  match error with
  | NewError message => JStr message
  | TypeError cause => JStr (TypeError_message cause)
  | Value v => Js.prop v "message"
  end.

(** The response the [catch] block of [handleRequest] builds from a
    caught [error] whose [message] can be read. *)
Definition caught (TypeError_message : TypeErrorCause -> string)
    (request : JsVal) (error : Thrown) : JsVal :=
  McpJsonRpcServer.error_response (-32603)
    (Js.logical_or (message TypeError_message error) (JStr "Internal error"))
    (Js.prop request "id").

(** The [message] of the caught value can be read: the value is neither
    [undefined] nor [null]. *)
Definition readable (error : Thrown) : bool :=
  match error with
  | Value v => negb (Js.nullish v)
  | _ => true
  end.

(** An [Error] instance, as the program and the runtime throw. *)
Definition is_Error (error : Thrown) : bool :=
  match error with
  | Value _ => false
  | _ => true
  end.

(** How the [catch] block of [handleRequest] completes on a request object:
    with the response [caught], or with the TypeError of reading the
    [message] of [undefined] or [null]. *)
Definition answered (TypeError_message : TypeErrorCause -> string)
    (request : JsVal) (error : Thrown) : Completion JsVal :=
  match error with
  | Value v =>
      if Js.nullish v then Abrupt (TypeError (NullishAccess v "message"))
      else Normal (caught TypeError_message request error)
  | _ => Normal (caught TypeError_message request error)
  end.

(** Whatever the provider throws has a [message] that can be read. *)
Definition throws_readable (resend : Resend) : Prop :=
  (forall emailRequest error,
      emails_send resend emailRequest = Abrupt error -> readable error = true)
  /\ (forall error,
        audiences_list resend = Abrupt error -> readable error = true).

(** Whatever the provider throws is an [Error] instance. *)
Definition throws_Errors (resend : Resend) : Prop :=
  (forall emailRequest error,
      emails_send resend emailRequest = Abrupt error -> is_Error error = true)
  /\ (forall error,
        audiences_list resend = Abrupt error -> is_Error error = true).

(** What [JSON.stringify] gives for a thrown value, as a template literal
    shows it; an [Error] instance has no enumerable property of its own. *)
Definition serialized (error : Thrown) : string :=
  match error with
  | Value v => Js.interpolate (Js.JSON_stringify v)
  | _ => "{}"
  end.

(** [s] has [sub] as a substring. *)
Fixpoint contains (sub s : string) : bool :=
  String.prefix sub s
  || match s with
     | EmptyString => false
     | String _ r => contains sub r
     end.

(** An optional argument [k] reaches the [emailRequest] exactly when its
    value is truthy, and unchanged. *)
Definition passed_if_truthy (args emailRequest : JsVal) (k : string) : Prop :=
  Js.hasOwn emailRequest k = Js.truthy (Js.prop args k)
  /\ (Js.truthy (Js.prop args k) = true ->
      Js.prop emailRequest k = Js.prop args k).

(** An empty value of the kinds the optional arguments have: the empty
    string or the empty array. *)
Definition empty_value (v : JsVal) : bool :=
  match v with
  | JStr s => String.eqb s EmptyString
  | JArr [] => true
  | _ => false
  end.

(** A computation only appends to the call log, and neither its outcome
    nor what it appends depends on the calls made before. *)
Definition framed {A} (m : M A) : Prop :=
  forall log, m log = (fst (m []), (log ++ snd (m []))%list).

(** The calls a computation makes. *)
Definition calls {A} (m : M A) : list ProviderCall := snd (m []).

Fixpoint has_comma (s : string) : bool :=
  match s with
  | EmptyString => false
  | String c r => Ascii.eqb c ","%char || has_comma r
  end.

Fixpoint count_commas (s : string) : nat :=
  match s with
  | EmptyString => 0
  | String c r => (if Ascii.eqb c ","%char then 1 else 0) + count_commas r
  end.

(** A character that [JSON.stringify] copies as it is: neither a control
    character, nor the double quote, nor the backslash. *)
Definition plain_char (c : ascii) : bool :=
  let n := nat_of_ascii c in
  negb (Nat.ltb n 32) && negb (Nat.eqb n 34) && negb (Nat.eqb n 92).

Fixpoint plain (s : string) : bool :=
  match s with
  | EmptyString => true
  | String c r => plain_char c && plain r
  end.

(** The names of the own properties of an object, in order. *)
Definition keys (v : JsVal) : list string :=
  match v with
  | JObj ps => map fst ps
  | _ => []
  end.

(** The strings of an array of strings. *)
Fixpoint strings (l : list JsVal) : list string :=
  match l with
  | JStr s :: r => s :: strings r
  | _ :: r => strings r
  | [] => []
  end.

(** The number of [resend.emails.send] calls recorded in a log. *)
Fixpoint send_count (log : list ProviderCall) : nat :=
  match log with
  | [] => 0
  | EmailsSend _ :: r => S (send_count r)
  | AudiencesList :: r => send_count r
  end.

End Spec.

(* ================================================================= *)
(** ** Sample configurations, providers and requests *)

Module Samples.

Definition env_with_defaults : ProcessEnv := {|
  RESEND_API_KEY := Some "re_test";
  SENDER_EMAIL_ADDRESS := Some "noreply@example.com";
  REPLY_TO_EMAIL_ADDRESSES := Some "help@example.com,ops@example.com" |}.

Definition env_sender_only : ProcessEnv := {|
  RESEND_API_KEY := Some "re_test";
  SENDER_EMAIL_ADDRESS := Some "noreply@example.com";
  REPLY_TO_EMAIL_ADDRESSES := None |}.

Definition env_bare : ProcessEnv := {|
  RESEND_API_KEY := Some "re_test";
  SENDER_EMAIL_ADDRESS := None;
  REPLY_TO_EMAIL_ADDRESSES := None |}.

(** A provider that accepts everything. *)
Definition accepting : Resend := {|
  emails_send := fun _ =>
    Normal (JObj [("data", JObj [("id", JStr "e1")]); ("error", JNull)]);
  audiences_list := Normal (JObj [("data", JArr []); ("error", JNull)]) |}.

(** A provider that reports the structured error [{ message: "bad" }]. *)
Definition rejecting : Resend := {|
  emails_send := fun _ =>
    Normal (JObj [("error", JObj [("message", JStr "bad")])]);
  audiences_list := Normal (JObj [("error", JObj [("message", JStr "bad")])]) |}.

(** A provider whose calls throw. *)
Definition throwing : Resend := {|
  emails_send := fun _ => Abrupt (NewError "socket hang up");
  audiences_list := Abrupt (NewError "socket hang up") |}.

(** A provider whose promises are rejected with [null]. *)
Definition rejecting_with_null : Resend := {|
  emails_send := fun _ => Abrupt (Value JNull);
  audiences_list := Abrupt (Value JNull) |}.




(** [undefined] or [null], as a message names it. *)
Definition nullish_name (v : JsVal) : string :=
  match v with
  | JNull => "null"
  | _ => "undefined"
  end.

(** The messages of V8.  The two destructurings of [handleCallTool] read
    [name] of [params] and [from] of [args] first; every other read of the
    program is a member access. *)
Definition TypeError_message (cause : TypeErrorCause) : string :=
  match cause with
  | NullishAccess v k =>
      if String.eqb k "name" then
        "Cannot destructure property 'name' of 'params' as it is "
        ++ nullish_name v ++ "."
      else if String.eqb k "from" then
        "Cannot destructure property 'from' of 'args' as it is "
        ++ nullish_name v ++ "."
      else
        "Cannot read properties of " ++ nullish_name v
        ++ " (reading '" ++ k ++ "')"
  | NotPrimitive _ => "Cannot convert object to primitive value"
  end.

Definition request (method : string) (params id : JsVal) : JsVal :=
  JObj [("jsonrpc", JStr "2.0"); ("method", JStr method);
        ("params", params); ("id", id)].

Definition tools_call (name : string) (args id : JsVal) : JsVal :=
  request "tools/call" (JObj [("name", JStr name); ("arguments", args)]) id.

(** [{ to: "a@b.com", subject: "hi", text: "hello" }] *)
Definition plain_args : JsVal :=
  JObj [("to", JStr "a@b.com"); ("subject", JStr "hi"); ("text", JStr "hello")].

(** The same without its [to]. *)
Definition args_without_to : JsVal :=
  JObj [("subject", JStr "hi"); ("text", JStr "hello")].

(** A reply-to that is neither a string nor an array. *)
Definition args_numeric_replyTo : JsVal :=
  JObj [("to", JStr "a@b.com"); ("subject", JStr "hi"); ("text", JStr "hello");
        ("replyTo", JNum 42)].

Definition args_empty_from : JsVal :=
  JObj [("from", JStr EmptyString); ("to", JStr "a@b.com");
        ("subject", JStr "hi"); ("text", JStr "hello")].

Definition args_explicit : JsVal :=
  JObj [("from", JStr "me@example.org"); ("to", JStr "a@b.com");
        ("subject", JStr "hi"); ("text", JStr "hello");
        ("replyTo", JArr [JStr "back@example.org"]);
        ("html", JStr EmptyString); ("cc", JArr []);
        ("bcc", JArr [JStr "c@b.com"])].

End Samples.

(* ================================================================= *)
(** ** Facts about the runtime layer *)

Section RuntimeFacts.

Lemma prop_defined_not_nullish (v : JsVal) (k : string) :
  Js.prop v k <> JUndefined -> Js.nullish v = false.
Proof.
  destruct v; simpl; intros H; try reflexivity; now elim H.
Qed.

Lemma prop_string_not_nullish (v : JsVal) (k s : string) :
  Js.prop v k = JStr s -> Js.nullish v = false.
Proof.
  intros H. apply prop_defined_not_nullish with (k := k). now rewrite H.
Qed.

Lemma member_defined (v : JsVal) (k : string) (log : list ProviderCall) :
  Js.nullish v = false -> member v k log = (Normal (Js.prop v k), log).
Proof.
  intros H. unfold member, RequireObjectCoercible, bind. now rewrite H.
Qed.

Lemma bind_member_defined {A} (v : JsVal) (k : string) (f : JsVal -> M A)
      (log : list ProviderCall) :
  Js.nullish v = false -> bind (member v k) f log = f (Js.prop v k) log.
Proof.
  intros H. unfold bind at 1. now rewrite member_defined.
Qed.

Lemma is_string_true (v : JsVal) (lit : string) :
  Js.is_string v lit = true <-> v = JStr lit.
Proof.
  destruct v; simpl; split; try discriminate.
  - intros H. apply String.eqb_eq in H. now subst.
  - intros H. injection H as ->. apply String.eqb_refl.
Qed.

Lemma is_string_false (v : JsVal) (lit : string) :
  v <> JStr lit -> Js.is_string v lit = false.
Proof.
  intros H. destruct (Js.is_string v lit) eqn:E; [|reflexivity].
  apply is_string_true in E. contradiction.
Qed.

Lemma contains_prefix (sub s : string) :
  String.prefix sub s = true -> Spec.contains sub s = true.
Proof.
  intros H. destruct s; cbn [Spec.contains]; rewrite H; reflexivity.
Qed.

Lemma prefix_refl (s : string) : String.prefix s s = true.
Proof.
  induction s as [|c s IH]; simpl; [reflexivity|].
  destruct (ascii_dec c c); [assumption | contradiction].
Qed.


(** [split] never returns the empty array. *)
Lemma split_comma_nonempty (s : string) : split_comma s <> [].
Proof.
  destruct s as [|c r]; simpl; [discriminate|].
  destruct (Ascii.eqb c ","); [discriminate|].
  destruct (split_comma r); discriminate.
Qed.

Lemma replierEmailAddresses_length (env : ProcessEnv) :
  Nat.eqb (length (replierEmailAddresses env)) 0
  = negb (Spec.configured (REPLY_TO_EMAIL_ADDRESSES env)).
Proof.
  unfold replierEmailAddresses, Spec.configured.
  destruct (REPLY_TO_EMAIL_ADDRESSES env) as [s|]; simpl; [|reflexivity].
  destruct (String.eqb s EmptyString); simpl; [reflexivity|].
  destruct (split_comma s) eqn:E; [|reflexivity].
  now apply split_comma_nonempty in E.
Qed.

Lemma senderEmailAddress_truthy (env : ProcessEnv) :
  Js.truthy (senderEmailAddress env)
  = Spec.configured (SENDER_EMAIL_ADDRESS env).
Proof.
  unfold senderEmailAddress, Spec.configured.
  now destruct (SENDER_EMAIL_ADDRESS env).
Qed.

End RuntimeFacts.

(* ================================================================= *)
(** ** Facts about the handlers *)

Section HandlerFacts.

Import McpJsonRpcServer.

Variable env : ProcessEnv.
Variable resend : Resend.
Variable TypeError_message : TypeErrorCause -> string.

Ltac run :=
  unfold handleRequest, handleCallTool, handleListTools, handleInitialize,
    build_emailRequest, email_sent, audiences_listed, resend_emails_send,
    resend_audiences_list, template, member, RequireObjectCoercible,
    try_catch, bind, ret, throw in *.

Ltac split_cases :=
  repeat match goal with
         | H : (_, _) = (_, _) |- _ => inversion H; subst; clear H
         | H : context [if ?b then _ else _] |- _ => destruct b eqn:?
         | H : context [match ?x with _ => _ end] |- _ => destruct x eqn:?
         end.

(** Decides the comparisons of a known string with a literal. *)
Ltac literal_tests :=
  repeat match goal with
         | |- context [Js.is_string (JStr ?a) ?b] =>
             let r := eval vm_compute in (Js.is_string (JStr a) b) in
             change (Js.is_string (JStr a) b) with r
         end;
  cbv iota.

Lemma stringify_truthy (v : JsVal) :
  Js.truthy v = true -> exists ser, Js.JSON_stringify v = Some ser.
Proof.
  destruct v as [| |[|]| | | |]; simpl; try discriminate; eauto.
Qed.

Lemma build_emailRequest_log args log :
  snd (build_emailRequest env args log) = log.
Proof.
  run. destruct (Js.nullish args); [reflexivity|].
  destruct (negb _); reflexivity.
Qed.

Lemma build_emailRequest_nullish args log :
  Js.nullish args = true ->
  build_emailRequest env args log
  = (Abrupt (TypeError (NullishAccess args "from")), log).
Proof. intros H. run. now rewrite H. Qed.

Lemma build_emailRequest_no_sender args log :
  Js.nullish args = false ->
  Js.truthy (Js.coalesce (Js.prop args "from") (senderEmailAddress env)) = false ->
  build_emailRequest env args log
  = (Abrupt (NewError "from argument must be provided."), log).
Proof. intros H1 H2. run. now rewrite H1, H2. Qed.

Lemma build_emailRequest_inv args log emailRequest log' :
  build_emailRequest env args log = (Normal emailRequest, log') ->
  log' = log /\ Js.nullish args = false
  /\ Js.truthy (Js.coalesce (Js.prop args "from") (senderEmailAddress env)) = true.
Proof.
  intros H. run.
  destruct (Js.nullish args); [discriminate|].
  destruct (Js.truthy _); simpl in H; [|discriminate].
  inversion H. auto.
Qed.

Lemma build_emailRequest_fields args log emailRequest log' :
  build_emailRequest env args log = (Normal emailRequest, log') ->
  Js.prop emailRequest "to" = Js.prop args "to"
  /\ Js.prop emailRequest "subject" = Js.prop args "subject"
  /\ Js.prop emailRequest "text" = Js.prop args "text"
  /\ Js.prop emailRequest "from"
     = Js.coalesce (Js.prop args "from") (senderEmailAddress env)
  /\ Js.hasOwn emailRequest "replyTo" = true
  /\ Js.prop emailRequest "replyTo"
     = Js.coalesce (Js.prop args "replyTo")
         (string_array (replierEmailAddresses env))
  /\ Spec.passed_if_truthy args emailRequest "html"
  /\ Spec.passed_if_truthy args emailRequest "scheduledAt"
  /\ Spec.passed_if_truthy args emailRequest "cc"
  /\ Spec.passed_if_truthy args emailRequest "bcc".
Proof.
  intros H. run.
  destruct (Js.nullish args); [discriminate|].
  destruct (negb _); [discriminate|].
  inversion H; subst; clear H.
  unfold Spec.passed_if_truthy, set_if_truthy.
  destruct (Js.truthy (Js.prop args "html")) eqn:Ehtml;
    destruct (Js.truthy (Js.prop args "scheduledAt")) eqn:Esched;
    destruct (Js.truthy (Js.prop args "cc")) eqn:Ecc;
    destruct (Js.truthy (Js.prop args "bcc")) eqn:Ebcc;
    simpl; repeat split; intros; reflexivity || discriminate.
Qed.

(** [email_sent] makes no call: its outcome does not depend on the log. *)
Lemma email_sent_pure response log log0 :
  email_sent response log = (fst (email_sent response log0), log).
Proof.
  run. destruct (Js.nullish response); [reflexivity|].
  destruct (Js.truthy _); reflexivity.
Qed.

Lemma email_sent_error response log :
  Js.truthy (Js.prop response "error") = true ->
  email_sent response log
  = (Abrupt (NewError ("Email failed to send: "
       ++ Js.interpolate (Js.JSON_stringify (Js.prop response "error")))), log).
Proof.
  intros H. run.
  assert (Hn : Js.nullish response = false).
  { apply prop_defined_not_nullish with (k := "error").
    intros E. rewrite E in H. discriminate. }
  now rewrite Hn, H.
Qed.

Lemma handleCallTool_send_email params log :
  Js.prop params "name" = JStr "send-email" ->
  handleCallTool env resend params log
  = bind (build_emailRequest env (Js.prop params "arguments"))
      (fun emailRequest =>
         bind (resend_emails_send resend emailRequest) email_sent) log.
Proof.
  intros H. unfold handleCallTool.
  unfold bind at 1, RequireObjectCoercible.
  rewrite (prop_string_not_nullish _ _ _ H), H. reflexivity.
Qed.

(** A call that completes normally returns a text payload. *)
Lemma handleCallTool_content params log result log' :
  handleCallTool env resend params log = (Normal result, log') ->
  exists text, result = text_content text.
Proof.
  intros H. run. split_cases; try discriminate; eauto.
Qed.

(** A name outside the registry: the handler throws before any call. *)
Lemma handleCallTool_unknown params log :
  Js.prop params "name" <> JStr "send-email" ->
  Js.prop params "name" <> JStr "list-audiences" ->
  exists e, handleCallTool env resend params log = (Abrupt e, log)
    /\ Spec.is_Error e = true
    /\ (forall shown, Js.nullish params = false ->
          Js.ToString (Js.prop params "name") = Some shown ->
          e = NewError ("Unknown tool: " ++ shown)).
Proof.
  intros H1 H2. run.
  destruct (Js.nullish params) eqn:Hn.
  - eexists; split; [reflexivity|]. split; [reflexivity|]. discriminate.
  - rewrite (is_string_false _ _ H1), (is_string_false _ _ H2).
    destruct (Js.ToString _) eqn:Et.
    + eexists; split; [reflexivity|]. split; [reflexivity|].
      intros shown _ E. congruence.
    + eexists; split; [reflexivity|]. split; [reflexivity|].
      intros shown _ E. discriminate.
Qed.

(** The [catch] block of [handleRequest], for a request object. *)
Lemma catch_answered request error log :
  Js.nullish request = false ->
  bind (message_of TypeError_message error)
    (fun error_message =>
       bind (member request "id")
         (fun id =>
            ret (error_response (-32603)
                   (Js.logical_or error_message (JStr "Internal error")) id)))
    log
  = (Spec.answered TypeError_message request error, log).
Proof.
  intros Hn. unfold Spec.answered, Spec.caught.
  destruct error as [message|cause|v]; cbn [message_of Spec.message].
  - unfold bind at 1, ret at 1.
    rewrite bind_member_defined by exact Hn. reflexivity.
  - unfold bind at 1, ret at 1.
    rewrite bind_member_defined by exact Hn. reflexivity.
  - destruct (Js.nullish v) eqn:Hv.
    + unfold bind at 1, member, RequireObjectCoercible, bind, throw.
      rewrite Hv. reflexivity.
    + rewrite bind_member_defined by exact Hv.
      rewrite bind_member_defined by exact Hn. reflexivity.
Qed.

Lemma answered_is_Error request error :
  Spec.is_Error error = true ->
  Spec.answered TypeError_message request error
  = Normal (Spec.caught TypeError_message request error).
Proof. destruct error; [reflexivity | reflexivity | discriminate]. Qed.

Lemma answered_inv request error response :
  Spec.answered TypeError_message request error = Normal response ->
  response = Spec.caught TypeError_message request error.
Proof.
  destruct error as [message|cause|v]; cbn [Spec.answered];
    try destruct (Js.nullish v); congruence.
Qed.

Lemma answered_readable request error :
  Spec.readable error = true ->
  Spec.answered TypeError_message request error
  = Normal (Spec.caught TypeError_message request error).
Proof.
  destruct error as [message|cause|v]; try reflexivity.
  cbn. intros H. apply negb_true_iff in H. now rewrite H.
Qed.

Lemma handleRequest_tools_call request log :
  Js.prop request "method" = JStr "tools/call" ->
  handleRequest env resend TypeError_message request log
  = match handleCallTool env resend (Js.prop request "params") log with
    | (Normal result, log') =>
        (Normal (result_response result (Js.prop request "id")), log')
    | (Abrupt error, log') =>
        (Spec.answered TypeError_message request error, log')
    end.
Proof.
  intros H. pose proof (prop_string_not_nullish _ _ _ H) as Hn.
  unfold handleRequest, try_catch; cbv beta.
  rewrite bind_member_defined by exact Hn.
  rewrite H. literal_tests.
  rewrite bind_member_defined by exact Hn.
  unfold bind at 1.
  destruct (handleCallTool env resend (Js.prop request "params") log)
    as [[result|error] log'].
  - rewrite bind_member_defined by exact Hn. reflexivity.
  - apply catch_answered. exact Hn.
Qed.

Lemma handleRequest_tools_list request log :
  Js.prop request "method" = JStr "tools/list" ->
  handleRequest env resend TypeError_message request log
  = (Normal (result_response
               (JObj [("tools", JArr [
                  JObj [
                    ("name", JStr "send-email");
                    ("description", JStr "Send an email using Resend");
                    ("inputSchema", JObj [
                      ("type", JStr "object");
                      ("properties", JObj (send_email_properties env));
                      ("required", JArr [JStr "to"; JStr "subject"; JStr "text"])])];
                  JObj [
                    ("name", JStr "list-audiences");
                    ("description", JStr "List all audiences from Resend");
                    ("inputSchema", JObj [
                      ("type", JStr "object");
                      ("properties", JObj [])])]])])
               (Js.prop request "id")), log).
Proof.
  intros H. pose proof (prop_string_not_nullish _ _ _ H) as Hn.
  unfold handleRequest, try_catch; cbv beta.
  rewrite bind_member_defined by exact Hn.
  rewrite H. literal_tests.
  unfold handleListTools, bind at 1, ret.
  rewrite bind_member_defined by exact Hn. reflexivity.
Qed.

Lemma handleRequest_initialize request log :
  Js.prop request "method" = JStr "initialize" ->
  handleRequest env resend TypeError_message request log
  = (Normal (result_response
               (JObj [
                  ("protocolVersion", JStr "2024-11-05");
                  ("capabilities", JObj [("tools", JObj [])]);
                  ("serverInfo", JObj [
                    ("name", JStr "resend-email-service");
                    ("version", JStr "1.0.0")])])
               (Js.prop request "id")), log).
Proof.
  intros H. pose proof (prop_string_not_nullish _ _ _ H) as Hn.
  unfold handleRequest, try_catch; cbv beta.
  rewrite bind_member_defined by exact Hn.
  rewrite H. literal_tests.
  rewrite bind_member_defined by exact Hn.
  unfold handleInitialize, bind at 1, ret.
  rewrite bind_member_defined by exact Hn.
  reflexivity.
Qed.

Lemma handleRequest_other request log :
  Js.nullish request = false ->
  Js.prop request "method" <> JStr "initialize" ->
  Js.prop request "method" <> JStr "tools/list" ->
  Js.prop request "method" <> JStr "tools/call" ->
  handleRequest env resend TypeError_message request log
  = (Normal (error_response (-32601) (JStr "Method not found")
               (Js.prop request "id")), log).
Proof.
  intros Hn H1 H2 H3.
  unfold handleRequest, try_catch; cbv beta.
  rewrite bind_member_defined by exact Hn.
  rewrite (is_string_false _ _ H1), (is_string_false _ _ H2),
    (is_string_false _ _ H3).
  rewrite bind_member_defined by exact Hn. reflexivity.
Qed.

(** What [handleCallTool] throws is thrown by the program, by the runtime
    or by the provider. *)
Lemma handleCallTool_thrown (P : Thrown -> bool) params log error log' :
  (forall message, P (NewError message) = true) ->
  (forall cause, P (TypeError cause) = true) ->
  (forall emailRequest e,
      emails_send resend emailRequest = Abrupt e -> P e = true) ->
  (forall e, audiences_list resend = Abrupt e -> P e = true) ->
  handleCallTool env resend params log = (Abrupt error, log') ->
  P error = true.
Proof.
  intros HE HT Hs Hl H. run. split_cases; try discriminate; eauto.
Qed.

Lemma caught_is_error request error :
  Spec.is_Error error = true ->
  exists message,
    Spec.caught TypeError_message request error
    = error_response (-32603) (JStr message) (Js.prop request "id").
Proof.
  unfold Spec.caught, Js.logical_or.
  destruct error as [message|cause|v]; [| |discriminate]; intros _;
    cbn [Spec.message]; destruct (Js.truthy _); eauto.
Qed.

Lemma replierEmailAddresses_default :
  Spec.configured (REPLY_TO_EMAIL_ADDRESSES env) = false ->
  replierEmailAddresses env = [].
Proof.
  intros H. pose proof (replierEmailAddresses_length env) as L.
  rewrite H in L. simpl in L.
  destruct (replierEmailAddresses env); [reflexivity | discriminate].
Qed.

(** A validated [send-email] call hands its [emailRequest] to the provider,
    once, and the dispatcher answers with what [email_sent] makes of the
    provider's completion. *)
Lemma handleRequest_send_email request log emailRequest :
  Js.prop request "method" = JStr "tools/call" ->
  Js.prop (Js.prop request "params") "name" = JStr "send-email" ->
  build_emailRequest env
    (Js.prop (Js.prop request "params") "arguments") log
  = (Normal emailRequest, log) ->
  snd (handleRequest env resend TypeError_message request log)
  = (log ++ [EmailsSend emailRequest])%list
  /\ (forall response,
        emails_send resend emailRequest = Normal response ->
        handleRequest env resend TypeError_message request log
        = match fst (email_sent response log) with
          | Normal result =>
              (Normal (result_response result (Js.prop request "id")),
               (log ++ [EmailsSend emailRequest])%list)
          | Abrupt error =>
              (Spec.answered TypeError_message request error,
               (log ++ [EmailsSend emailRequest])%list)
          end)
  /\ (forall error,
        emails_send resend emailRequest = Abrupt error ->
        handleRequest env resend TypeError_message request log
        = (Spec.answered TypeError_message request error,
           (log ++ [EmailsSend emailRequest])%list)).
Proof.
  intros Hm Hname Hb.
  assert (Hout :
    handleRequest env resend TypeError_message request log
    = match emails_send resend emailRequest with
      | Normal response =>
          match fst (email_sent response log) with
          | Normal result =>
              (Normal (result_response result (Js.prop request "id")),
               (log ++ [EmailsSend emailRequest])%list)
          | Abrupt error =>
              (Spec.answered TypeError_message request error,
               (log ++ [EmailsSend emailRequest])%list)
          end
      | Abrupt error =>
          (Spec.answered TypeError_message request error,
           (log ++ [EmailsSend emailRequest])%list)
      end).
  { rewrite (handleRequest_tools_call _ _ Hm).
    rewrite (handleCallTool_send_email _ _ Hname).
    unfold bind at 1. rewrite Hb.
    unfold bind at 1, resend_emails_send.
    destruct (emails_send resend emailRequest) as [response|error];
      [|reflexivity].
    rewrite (email_sent_pure response (log ++ [EmailsSend emailRequest])%list log).
    destruct (fst (email_sent response log)); reflexivity. }
  rewrite Hout.
  destruct (emails_send resend emailRequest) as [response|error].
  - split; [destruct (fst (email_sent response log)); reflexivity|].
    split; [|discriminate].
    intros r Hr. injection Hr as <-. reflexivity.
  - split; [reflexivity|]. split; [discriminate|].
    intros e He. injection He as <-. reflexivity.
Qed.

(** A [send-email] call that fails validation never reaches the provider. *)
Lemma handleRequest_send_email_rejected request log error :
  Js.prop request "method" = JStr "tools/call" ->
  Js.prop (Js.prop request "params") "name" = JStr "send-email" ->
  build_emailRequest env
    (Js.prop (Js.prop request "params") "arguments") log
  = (Abrupt error, log) ->
  handleRequest env resend TypeError_message request log
  = (Spec.answered TypeError_message request error, log).
Proof.
  intros Hm Hname Hb.
  rewrite (handleRequest_tools_call _ _ Hm).
  rewrite (handleCallTool_send_email _ _ Hname).
  unfold bind at 1. rewrite Hb. reflexivity.
Qed.

(** Without a request object nothing can be answered: reading [id] in the
    [catch] block throws again, and the exception leaves [handleRequest]. *)
Remark handleRequest_undefined_escapes log :
  handleRequest env resend TypeError_message JUndefined log
  = (Abrupt (TypeError (NullishAccess JUndefined "id")), log).
Proof. reflexivity. Qed.

(** The handler of the SSE variant checks the resolved reply-to before it
    calls the provider. *)
Lemma SseServer_replyTo_checked args log :
  Js.nullish args = false ->
  SseServer.not_a_string
    (Js.coalesce (Js.prop args "from") (senderEmailAddress env)) = false ->
  SseServer.not_a_string
    (Js.coalesce (Js.prop args "replyTo")
       (string_array (replierEmailAddresses env))) = true ->
  SseServer.isArray
    (Js.coalesce (Js.prop args "replyTo")
       (string_array (replierEmailAddresses env))) = false ->
  SseServer.send_email env resend args log
  = (Abrupt (NewError "replyTo argument must be provided."), log).
Proof.
  intros Hn Hf Hs Ha.
  unfold SseServer.send_email, SseServer.build_emailRequest,
    RequireObjectCoercible, bind, throw, ret.
  now rewrite Hn, Hf, Hs, Ha.
Qed.

End HandlerFacts.

(* ================================================================= *)
(** ** The properties of the specification *)

Import McpJsonRpcServer.

(** C1, as the code behaves: a [send-email] call whose arguments lack [to]
    is not rejected.  With a default sender configured and a provider that
    accepts, the dispatcher hands the provider an [emailRequest] whose [to] is
    [undefined] and answers with a result, not with error -32603. *)
Theorem send_email_without_to_reaches_provider :
  exists result emailRequest,
    handleRequest Samples.env_sender_only Samples.accepting
      Samples.TypeError_message
      (Samples.tools_call "send-email" Samples.args_without_to (JNum 1)) []
    = (Normal (result_response result (JNum 1)), [EmailsSend emailRequest])
    /\ Js.hasOwn Samples.args_without_to "to" = false
    /\ Js.prop emailRequest "to" = JUndefined
    /\ Spec.error_code (result_response result (JNum 1)) = None
    /\ Spec.send_count [EmailsSend emailRequest] = 1.
Proof.
  do 2 eexists. split; [vm_compute; reflexivity|].
  repeat split.
Qed.


(** How far C2 holds: when whatever the provider throws is an [Error]
    instance, [handleRequest] completes normally on every JsonRpcRequest with
    a well-formed response, which has exactly one of [result] and [error], and
    whose [id] is the [id] of the request, [null] included. *)
Lemma handleRequest_returns_well_formed
    (env : ProcessEnv) (resend : Resend)
    (TypeError_message : TypeErrorCause -> string)
    (request : JsVal) (log : list ProviderCall) :
  Spec.throws_Errors resend ->
  Spec.is_JsonRpcRequest request = true ->
  exists response log',
    handleRequest env resend TypeError_message request log
    = (Normal response, log')
    /\ Spec.well_formed_response response = true
    /\ Js.prop response "id" = Js.prop request "id".
Proof.
  intros [Hsend Hlist] Hreq.
  assert (Hn : Js.nullish request = false).
  { destruct request; simpl in Hreq; try discriminate. reflexivity. }
  destruct (Js.prop request "method") as [| | | |method| |] eqn:Hm;
    try (rewrite (handleRequest_other env resend TypeError_message request log Hn)
          by (rewrite Hm; discriminate);
         do 2 eexists; split; [reflexivity|]; split; reflexivity).
  destruct (string_dec method "initialize") as [->|N1].
  { rewrite (handleRequest_initialize env resend TypeError_message request log Hm).
    do 2 eexists. split; [reflexivity|]. split; reflexivity. }
  destruct (string_dec method "tools/list") as [->|N2].
  { rewrite (handleRequest_tools_list env resend TypeError_message request log Hm).
    do 2 eexists. split; [reflexivity|]. split; reflexivity. }
  destruct (string_dec method "tools/call") as [->|N3].
  { rewrite (handleRequest_tools_call env resend TypeError_message request log Hm).
    destruct (handleCallTool env resend (Js.prop request "params") log)
      as [[result|error] log'] eqn:Hc.
    - destruct (handleCallTool_content _ _ _ _ _ _ Hc) as [text ->].
      do 2 eexists. split; [reflexivity|]. split; reflexivity.
    - assert (He : Spec.is_Error error = true).
      { apply (handleCallTool_thrown env resend Spec.is_Error _ _ _ _
                 (fun _ => eq_refl) (fun _ => eq_refl) Hsend Hlist Hc). }
      rewrite (answered_is_Error TypeError_message request error He).
      destruct (caught_is_error TypeError_message request error He)
        as [message ->].
      do 2 eexists. split; [reflexivity|]. split; reflexivity. }
  rewrite (handleRequest_other env resend TypeError_message request log Hn)
    by (rewrite Hm; congruence).
  do 2 eexists. split; [reflexivity|]. split; reflexivity.
Qed.

Lemma handleRequest_returns_well_formed_witness :
  Spec.is_JsonRpcRequest
    (Samples.tools_call "send-email" Samples.plain_args JNull) = true
  /\ exists response log',
       handleRequest Samples.env_with_defaults Samples.throwing
         Samples.TypeError_message
         (Samples.tools_call "send-email" Samples.plain_args JNull) []
       = (Normal response, log')
       /\ Spec.well_formed_response response = true
       /\ Js.prop response "id" = JNull.
Proof.
  split; [reflexivity|].
  apply (handleRequest_returns_well_formed Samples.env_with_defaults
           Samples.throwing Samples.TypeError_message
           (Samples.tools_call "send-email" Samples.plain_args JNull) []).
  - split.
    + intros emailRequest error H. injection H as <-. reflexivity.
    + intros error H. injection H as <-. reflexivity.
  - reflexivity.
Defined.

(** C3: in a validated [send-email] call an explicit [from] or [replyTo]
    argument (one that is neither [undefined] nor [null]) is what the
    provider receives, whatever the defaults; and when a default sender is
    configured and the call gives neither [from] nor [replyTo], the provider
    is called with the configured sender as [from] and the configured reply-to
    list, possibly empty, as [replyTo]. *)
Theorem send_email_defaults_and_overrides
    (env : ProcessEnv) (resend : Resend)
    (TypeError_message : TypeErrorCause -> string)
    (request : JsVal) (log : list ProviderCall) :
  Js.prop request "method" = JStr "tools/call" ->
  Js.prop (Js.prop request "params") "name" = JStr "send-email" ->
  let args := Js.prop (Js.prop request "params") "arguments" in
  (forall emailRequest,
      build_emailRequest env args log = (Normal emailRequest, log) ->
      snd (handleRequest env resend TypeError_message request log)
      = (log ++ [EmailsSend emailRequest])%list
      /\ (Js.nullish (Js.prop args "from") = false ->
          Js.prop emailRequest "from" = Js.prop args "from")
      /\ (Js.nullish (Js.prop args "replyTo") = false ->
          Js.prop emailRequest "replyTo" = Js.prop args "replyTo"))
  /\ (Spec.configured (SENDER_EMAIL_ADDRESS env) = true ->
      Js.nullish args = false ->
      Js.nullish (Js.prop args "from") = true ->
      Js.nullish (Js.prop args "replyTo") = true ->
      exists emailRequest,
        snd (handleRequest env resend TypeError_message request log)
        = (log ++ [EmailsSend emailRequest])%list
        /\ Js.prop emailRequest "from" = senderEmailAddress env
        /\ Js.prop emailRequest "replyTo"
           = string_array (replierEmailAddresses env)).
Proof.
  intros Hm Hname args. split.
  - intros emailRequest Hb.
    destruct (handleRequest_send_email env resend TypeError_message
                request log emailRequest Hm Hname Hb) as [Hlog _].
    destruct (build_emailRequest_fields env _ _ _ _ Hb)
      as (_ & _ & _ & Hfrom & _ & Hreply & _).
    split; [exact Hlog|]. fold args in Hfrom, Hreply.
    unfold Js.coalesce in Hfrom, Hreply. split.
    + intros H. now rewrite H in Hfrom.
    + intros H. now rewrite H in Hreply.
  - intros Hcfg Hargs Hfrom Hreply.
    assert (Hb : exists emailRequest,
               build_emailRequest env args log = (Normal emailRequest, log)).
    { destruct (build_emailRequest env args log) as [[emailRequest|error] log']
        eqn:Hb.
      - pose proof (build_emailRequest_log env args log) as Hl.
        rewrite Hb in Hl. simpl in Hl. subst log'. eauto.
      - exfalso. revert Hb.
        unfold build_emailRequest, RequireObjectCoercible, bind, ret, throw.
        rewrite Hargs. unfold Js.coalesce at 1. rewrite Hfrom.
        rewrite senderEmailAddress_truthy, Hcfg. discriminate. }
    destruct Hb as [emailRequest Hb]. exists emailRequest.
    destruct (handleRequest_send_email env resend TypeError_message
                request log emailRequest Hm Hname Hb) as [Hlog _].
    destruct (build_emailRequest_fields env _ _ _ _ Hb)
      as (_ & _ & _ & Hf & _ & Hr & _).
    fold args in Hf, Hr. unfold Js.coalesce in Hf, Hr.
    rewrite Hfrom in Hf. rewrite Hreply in Hr. auto.
Qed.

Lemma send_email_defaults_and_overrides_witness :
  (exists emailRequest,
      snd (handleRequest Samples.env_with_defaults Samples.accepting
             Samples.TypeError_message
             (Samples.tools_call "send-email" Samples.plain_args (JNum 7)) [])
      = [EmailsSend emailRequest]
      /\ Js.prop emailRequest "from" = JStr "noreply@example.com"
      /\ Js.prop emailRequest "replyTo"
         = JArr [JStr "help@example.com"; JStr "ops@example.com"])
  /\ (exists emailRequest,
        snd (handleRequest Samples.env_with_defaults Samples.accepting
               Samples.TypeError_message
               (Samples.tools_call "send-email" Samples.args_explicit (JNum 7)) [])
        = [EmailsSend emailRequest]
        /\ Js.prop emailRequest "from" = JStr "me@example.org"
        /\ Js.prop emailRequest "replyTo" = JArr [JStr "back@example.org"]).
Proof.
  split.
  - apply (proj2 (send_email_defaults_and_overrides Samples.env_with_defaults
             Samples.accepting Samples.TypeError_message
             (Samples.tools_call "send-email" Samples.plain_args (JNum 7)) []
             eq_refl eq_refl)); reflexivity.
  - destruct (proj1 (send_email_defaults_and_overrides Samples.env_with_defaults
                Samples.accepting Samples.TypeError_message
                (Samples.tools_call "send-email" Samples.args_explicit (JNum 7)) []
                eq_refl eq_refl) _ eq_refl) as (Hlog & Hfrom & Hreply).
    eexists. split; [exact Hlog|].
    split; [exact (Hfrom eq_refl) | exact (Hreply eq_refl)].
Defined.



(** C5, as the code behaves: the JSON-RPC handler does not check the
    resolved reply-to.  A [replyTo] of [42], neither a string nor an array,
    reaches the provider inside the [emailRequest] and the call succeeds,
    whereas the handler of the SSE variant rejects the same arguments before
    any provider call. *)
Theorem numeric_replyTo_reaches_provider :
  (exists result emailRequest,
      handleRequest Samples.env_sender_only Samples.accepting
        Samples.TypeError_message
        (Samples.tools_call "send-email" Samples.args_numeric_replyTo (JNum 1)) []
      = (Normal (result_response result (JNum 1)), [EmailsSend emailRequest])
      /\ Js.prop emailRequest "replyTo" = JNum 42)
  /\ SseServer.send_email Samples.env_sender_only Samples.accepting
       Samples.args_numeric_replyTo []
     = (Abrupt (NewError "replyTo argument must be provided."), []).
Proof.
  split.
  - do 2 eexists. split; vm_compute; reflexivity.
  - vm_compute. reflexivity.
Qed.




(** C7: a request whose method is none of [initialize], [tools/list] and
    [tools/call] is answered with error -32601, without a [result], with the
    [id] of the request; the answer depends on neither the configuration nor
    the provider, and no provider call is made. *)
Theorem unknown_method_not_found
    (env : ProcessEnv) (resend : Resend)
    (TypeError_message : TypeErrorCause -> string)
    (request : JsVal) (log : list ProviderCall) :
  Js.nullish request = false ->
  Js.prop request "method" <> JStr "initialize" ->
  Js.prop request "method" <> JStr "tools/list" ->
  Js.prop request "method" <> JStr "tools/call" ->
  exists response,
    handleRequest env resend TypeError_message request log
    = (Normal response, log)
    /\ response
       = error_response (-32601) (JStr "Method not found") (Js.prop request "id")
    /\ Spec.error_code response = Some (-32601)%Z
    /\ Js.hasOwn response "result" = false
    /\ Js.prop response "id" = Js.prop request "id".
Proof.
  intros Hn H1 H2 H3.
  rewrite (handleRequest_other env resend TypeError_message request log Hn H1 H2 H3).
  eexists. split; [reflexivity|]. repeat split.
Qed.

Lemma unknown_method_not_found_witness :
  exists response,
    handleRequest Samples.env_bare Samples.accepting Samples.TypeError_message
      (Samples.request "resources/list" JUndefined JNull) [AudiencesList]
    = (Normal response, [AudiencesList])
    /\ response = error_response (-32601) (JStr "Method not found") JNull
    /\ Spec.error_code response = Some (-32601)%Z
    /\ Js.hasOwn response "result" = false
    /\ Js.prop response "id" = JNull.
Proof.
  apply (unknown_method_not_found Samples.env_bare Samples.accepting
           Samples.TypeError_message
           (Samples.request "resources/list" JUndefined JNull) [AudiencesList]);
    [reflexivity | discriminate | discriminate | discriminate].
Defined.

(** C8: a [tools/call] whose name is neither [send-email] nor
    [list-audiences] completes normally with error -32603 and makes no
    provider call; for a name that is a string the message is
    [Unknown tool: ] followed by the name. *)
Theorem unknown_tool_is_internal_error
    (env : ProcessEnv) (resend : Resend)
    (TypeError_message : TypeErrorCause -> string)
    (request : JsVal) (log : list ProviderCall) :
  Js.prop request "method" = JStr "tools/call" ->
  Js.prop (Js.prop request "params") "name" <> JStr "send-email" ->
  Js.prop (Js.prop request "params") "name" <> JStr "list-audiences" ->
  exists message,
    handleRequest env resend TypeError_message request log
    = (Normal (error_response (-32603) (JStr message) (Js.prop request "id")),
       log)
    /\ (forall tool,
          Js.prop (Js.prop request "params") "name" = JStr tool ->
          message = "Unknown tool: " ++ tool).
Proof.
  intros Hm H1 H2.
  rewrite (handleRequest_tools_call env resend TypeError_message request log Hm).
  destruct (handleCallTool_unknown env resend (Js.prop request "params") log H1 H2)
    as (error & -> & Herror & Hshown).
  rewrite (answered_is_Error TypeError_message request error Herror).
  destruct (caught_is_error TypeError_message request error Herror)
    as [message E].
  exists message. split; [now rewrite E|].
  intros tool Htool.
  rewrite (Hshown tool) in E.
  - unfold Spec.caught, error_response in E. simpl in E. now injection E.
  - exact (prop_string_not_nullish _ _ _ Htool).
  - rewrite Htool. reflexivity.
Qed.

Lemma unknown_tool_is_internal_error_witness :
  exists message,
    handleRequest Samples.env_with_defaults Samples.accepting
      Samples.TypeError_message
      (Samples.tools_call "unknown-tool" Samples.plain_args (JNum 5)) []
    = (Normal (error_response (-32603) (JStr message) (JNum 5)), [])
    /\ (forall tool, JStr "unknown-tool" = JStr tool ->
                     message = "Unknown tool: " ++ tool).
Proof.
  apply (unknown_tool_is_internal_error Samples.env_with_defaults
           Samples.accepting Samples.TypeError_message
           (Samples.tools_call "unknown-tool" Samples.plain_args (JNum 5)) []);
    [reflexivity | discriminate | discriminate].
Defined.

(** C9: a [send-email] call whose [from] is the empty string is answered
    with error -32603 and the message [from argument must be provided.],
    whatever default sender is configured, and the provider is not called. *)
Theorem empty_from_rejected
    (env : ProcessEnv) (resend : Resend)
    (TypeError_message : TypeErrorCause -> string)
    (request : JsVal) (log : list ProviderCall) :
  Js.prop request "method" = JStr "tools/call" ->
  Js.prop (Js.prop request "params") "name" = JStr "send-email" ->
  Js.prop (Js.prop (Js.prop request "params") "arguments") "from"
  = JStr EmptyString ->
  handleRequest env resend TypeError_message request log
  = (Normal (error_response (-32603) (JStr "from argument must be provided.")
               (Js.prop request "id")), log).
Proof.
  intros Hm Hname Hfrom.
  rewrite (handleRequest_send_email_rejected env resend TypeError_message
             request log (NewError "from argument must be provided.") Hm Hname).
  - reflexivity.
  - apply build_emailRequest_no_sender.
    + exact (prop_string_not_nullish _ _ _ Hfrom).
    + rewrite Hfrom. reflexivity.
Qed.

Lemma empty_from_rejected_witness :
  Spec.configured (SENDER_EMAIL_ADDRESS Samples.env_with_defaults) = true
  /\ handleRequest Samples.env_with_defaults Samples.accepting
       Samples.TypeError_message
       (Samples.tools_call "send-email" Samples.args_empty_from (JNum 9)) []
     = (Normal (error_response (-32603)
                  (JStr "from argument must be provided.") (JNum 9)), []).
Proof.
  split; [reflexivity|].
  apply (empty_from_rejected Samples.env_with_defaults Samples.accepting
           Samples.TypeError_message
           (Samples.tools_call "send-email" Samples.args_empty_from (JNum 9)) []);
    reflexivity.
Defined.

(** C10, as stated, fails for an empty array: [cc: []] is an empty value,
    yet it is truthy and the [emailRequest] handed to the provider has it. *)
Lemma empty_cc_is_not_omitted :
  ~ (forall emailRequest,
        snd (handleRequest Samples.env_bare Samples.accepting
               Samples.TypeError_message
               (Samples.tools_call "send-email" Samples.args_explicit (JNum 2)) [])
        = [EmailsSend emailRequest] ->
        forall k, In k ["html"; "scheduledAt"; "cc"; "bcc"] ->
          Spec.empty_value (Js.prop Samples.args_explicit k) = true ->
          Js.hasOwn emailRequest k = false).
Proof.
  intros H.
  specialize (H _ eq_refl "cc" (or_intror (or_intror (or_introl eq_refl))) eq_refl).
  vm_compute in H. discriminate H.
Qed.

(** C10, amended: in a validated [send-email] call the [emailRequest] handed
    to the provider always has a [replyTo] property, the empty array when the
    call gives none and no default list is configured; [html], [scheduledAt],
    [cc] and [bcc] are in it exactly when the argument is truthy, with the
    value of the argument: an argument that is the empty string is left out,
    an argument that is the empty array is passed on. *)
Theorem emailRequest_optional_fields
    (env : ProcessEnv) (resend : Resend)
    (TypeError_message : TypeErrorCause -> string)
    (request : JsVal) (log : list ProviderCall) (emailRequest : JsVal) :
  Js.prop request "method" = JStr "tools/call" ->
  Js.prop (Js.prop request "params") "name" = JStr "send-email" ->
  let args := Js.prop (Js.prop request "params") "arguments" in
  build_emailRequest env args log = (Normal emailRequest, log) ->
  snd (handleRequest env resend TypeError_message request log)
  = (log ++ [EmailsSend emailRequest])%list
  /\ Js.hasOwn emailRequest "replyTo" = true
  /\ (Js.nullish (Js.prop args "replyTo") = true ->
      Spec.configured (REPLY_TO_EMAIL_ADDRESSES env) = false ->
      Js.prop emailRequest "replyTo" = JArr [])
  /\ (forall k, In k ["html"; "scheduledAt"; "cc"; "bcc"] ->
        Js.hasOwn emailRequest k = Js.truthy (Js.prop args k)
        /\ (Js.truthy (Js.prop args k) = true ->
            Js.prop emailRequest k = Js.prop args k)
        /\ (Js.prop args k = JStr EmptyString ->
            Js.hasOwn emailRequest k = false)
        /\ (Js.prop args k = JArr [] ->
            Js.prop emailRequest k = JArr [])).
Proof.
  intros Hm Hname args Hb.
  destruct (handleRequest_send_email env resend TypeError_message
              request log emailRequest Hm Hname Hb) as [Hlog _].
  destruct (build_emailRequest_fields env _ _ _ _ Hb)
    as (_ & _ & _ & _ & Hown & Hreply & Hhtml & Hsched & Hcc & Hbcc).
  fold args in Hreply, Hhtml, Hsched, Hcc, Hbcc.
  split; [exact Hlog|]. split; [exact Hown|]. split.
  - intros Hnull Hcfg. rewrite Hreply. unfold Js.coalesce. rewrite Hnull.
    rewrite (replierEmailAddresses_default env Hcfg). reflexivity.
  - intros k Hk.
    assert (Hp : Spec.passed_if_truthy args emailRequest k).
    { simpl in Hk. intuition (subst; assumption). }
    destruct Hp as [Hp1 Hp2]. split; [exact Hp1|]. split; [exact Hp2|].
    split.
    + intros He. rewrite Hp1, He. reflexivity.
    + intros He. rewrite <- He. apply Hp2. rewrite He. reflexivity.
Qed.

Lemma emailRequest_optional_fields_witness :
  exists emailRequest,
    snd (handleRequest Samples.env_bare Samples.accepting
           Samples.TypeError_message
           (Samples.tools_call "send-email" Samples.args_explicit (JNum 2)) [])
    = [EmailsSend emailRequest]
    /\ Js.hasOwn emailRequest "replyTo" = true
    /\ Js.hasOwn emailRequest "html" = false
    /\ Js.hasOwn emailRequest "scheduledAt" = false
    /\ Js.prop emailRequest "cc" = JArr []
    /\ Js.prop emailRequest "bcc" = JArr [JStr "c@b.com"].
Proof.
  destruct (emailRequest_optional_fields Samples.env_bare Samples.accepting
              Samples.TypeError_message
              (Samples.tools_call "send-email" Samples.args_explicit (JNum 2)) []
              _ eq_refl eq_refl eq_refl) as (Hlog & Hown & _ & Hopt).
  eexists. split; [exact Hlog|]. split; [exact Hown|].
  split; [exact (proj1 (Hopt "html" (or_introl eq_refl)))|].
  split; [exact (proj1 (Hopt "scheduledAt" (or_intror (or_introl eq_refl))))|].
  split.
  - exact (proj2 (proj2 (proj2 (Hopt "cc"
             (or_intror (or_intror (or_introl eq_refl)))))) eq_refl).
  - exact (proj1 (proj2 (Hopt "bcc"
             (or_intror (or_intror (or_intror (or_introl eq_refl)))))) eq_refl).
Defined.

(* ================================================================= *)
(** ** Further facts: how the handlers use the call log *)

Section FrameFacts.

Lemma framed_ret {A} (a : A) : Spec.framed (ret a).
Proof. intros log. unfold ret. simpl. now rewrite app_nil_r. Qed.

Lemma framed_throw {A} (e : Thrown) : Spec.framed (@throw A e).
Proof. intros log. unfold throw. simpl. now rewrite app_nil_r. Qed.

Lemma framed_bind {A B} (m : M A) (f : A -> M B) :
  Spec.framed m -> (forall a, Spec.framed (f a)) -> Spec.framed (bind m f).
Proof.
  intros Hm Hf log. unfold bind.
  rewrite (Hm log).
  destruct (m []) as [[a|e] c]; cbn [fst snd].
  - rewrite (Hf a (log ++ c)%list), (Hf a c). cbn [fst snd].
    now rewrite app_assoc.
  - reflexivity.
Qed.

Lemma framed_try_catch {A} (m : M A) (handler : Thrown -> M A) :
  Spec.framed m -> (forall e, Spec.framed (handler e)) ->
  Spec.framed (try_catch m handler).
Proof.
  intros Hm Hh log. unfold try_catch.
  rewrite (Hm log).
  destruct (m []) as [[a|e] c]; cbn [fst snd].
  - reflexivity.
  - rewrite (Hh e (log ++ c)%list), (Hh e c). cbn [fst snd].
    now rewrite app_assoc.
Qed.

Lemma framed_member (v : JsVal) (k : string) : Spec.framed (member v k).
Proof.
  unfold member, RequireObjectCoercible.
  destruct (Js.nullish v);
    (apply framed_bind; [first [apply framed_throw | apply framed_ret]|]);
    intros; apply framed_ret.
Qed.

Lemma framed_emails_send (resend : Resend) (emailRequest : JsVal) :
  Spec.framed (McpJsonRpcServer.resend_emails_send resend emailRequest).
Proof. intros log. reflexivity. Qed.

Lemma framed_audiences_list (resend : Resend) :
  Spec.framed (McpJsonRpcServer.resend_audiences_list resend).
Proof. intros log. reflexivity. Qed.

Ltac framed_step :=
  first
    [ apply framed_ret | apply framed_throw | apply framed_member
    | apply framed_emails_send | apply framed_audiences_list
    | apply framed_bind | apply framed_try_catch
    | progress intros
    | match goal with
      | |- Spec.framed (if ?b then _ else _) => destruct b
      | |- Spec.framed (match ?x with _ => _ end) => destruct x
      end ].

Ltac framed := repeat framed_step.

Lemma framed_handleCallTool env resend params :
  Spec.framed (McpJsonRpcServer.handleCallTool env resend params).
Proof.
  unfold McpJsonRpcServer.handleCallTool, McpJsonRpcServer.build_emailRequest,
    McpJsonRpcServer.email_sent, McpJsonRpcServer.audiences_listed, template,
    RequireObjectCoercible.
  framed.
Qed.

Lemma framed_handleRequest env resend TypeError_message request :
  Spec.framed
    (McpJsonRpcServer.handleRequest env resend TypeError_message request).
Proof.
  unfold McpJsonRpcServer.handleRequest, McpJsonRpcServer.handleInitialize,
    McpJsonRpcServer.handleListTools, McpJsonRpcServer.message_of.
  repeat first [apply framed_handleCallTool | framed_step].
Qed.

End FrameFacts.

Section CallFacts.

Import McpJsonRpcServer.

Variable env : ProcessEnv.
Variable resend : Resend.
Variable TypeError_message : TypeErrorCause -> string.

Ltac open_handlers :=
  unfold handleRequest, handleCallTool, handleListTools, handleInitialize,
    build_emailRequest, email_sent, audiences_listed, resend_emails_send,
    resend_audiences_list, template, member, RequireObjectCoercible,
    try_catch, bind, ret, throw in *.

Ltac branches :=
  repeat match goal with
         | |- context [if ?b then _ else _] => destruct b eqn:?
         | |- context [match ?x with _ => _ end] => destruct x eqn:?
         end.

(** [build_emailRequest] makes no call and does not look at the log. *)
Lemma build_emailRequest_pure args log log0 :
  build_emailRequest env args log
  = (fst (build_emailRequest env args log0), log).
Proof.
  open_handlers. destruct (Js.nullish args); [reflexivity|].
  destruct (negb _); reflexivity.
Qed.

(** The calls of [handleCallTool], by tool name. *)
Lemma handleCallTool_calls params :
  snd (handleCallTool env resend params [])
  = if Js.nullish params then []
    else if Js.is_string (Js.prop params "name") "send-email" then
      match fst (build_emailRequest env (Js.prop params "arguments") []) with
      | Normal emailRequest => [EmailsSend emailRequest]
      | Abrupt _ => []
      end
    else if Js.is_string (Js.prop params "name") "list-audiences" then
      [AudiencesList]
    else [].
Proof.
  unfold handleCallTool, RequireObjectCoercible. unfold bind at 1.
  destruct (Js.nullish params); [reflexivity|]. unfold ret at 1.
  destruct (Js.is_string (Js.prop params "name") "send-email").
  - unfold bind at 1.
    rewrite (build_emailRequest_pure (Js.prop params "arguments") [] []).
    destruct (fst (build_emailRequest env (Js.prop params "arguments") []))
      as [emailRequest|error]; [|reflexivity].
    unfold bind, resend_emails_send. simpl app.
    destruct (emails_send resend emailRequest) as [response|error];
      [|reflexivity].
    rewrite (email_sent_pure response [EmailsSend emailRequest] []).
    now destruct (fst (email_sent response [])).
  - destruct (Js.is_string (Js.prop params "name") "list-audiences").
    + open_handlers. simpl app.
      destruct (audiences_list resend) as [response|error]; [|reflexivity].
      destruct (Js.nullish response); [reflexivity|].
      destruct (Js.truthy _); reflexivity.
    + open_handlers. destruct (Js.ToString _); reflexivity.
Qed.

(** The calls of [handleRequest]: those of [handleCallTool] for a
    [tools/call], none otherwise. *)
Lemma handleRequest_calls request :
  snd (handleRequest env resend TypeError_message request [])
  = if Js.nullish request then []
    else if Js.is_string (Js.prop request "method") "tools/call" then
      snd (handleCallTool env resend (Js.prop request "params") [])
    else [].
Proof.
  destruct (Js.nullish request) eqn:Hn; [now open_handlers; rewrite Hn|].
  destruct (Js.is_string (Js.prop request "method") "tools/call") eqn:Hc.
  - apply is_string_true in Hc.
    rewrite (handleRequest_tools_call env resend TypeError_message request [] Hc).
    now destruct (handleCallTool env resend (Js.prop request "params") [])
      as [[result|error] log'].
  - unfold handleRequest, try_catch; cbv beta.
    rewrite bind_member_defined by exact Hn. rewrite Hc.
    destruct (Js.is_string (Js.prop request "method") "initialize").
    { rewrite bind_member_defined by exact Hn.
      unfold handleInitialize, bind at 1, ret.
      now rewrite bind_member_defined by exact Hn. }
    destruct (Js.is_string (Js.prop request "method") "tools/list").
    { unfold handleListTools, bind at 1, ret.
      now rewrite bind_member_defined by exact Hn. }
    now rewrite bind_member_defined by exact Hn.
Qed.

Lemma handleRequest_calls_bound request :
  length (snd (handleRequest env resend TypeError_message request [])) <= 1.
Proof.
  rewrite handleRequest_calls, handleCallTool_calls.
  branches; simpl; lia.
Qed.

(** Whatever [handleRequest] returns for a request object is an object of
    three properties: the version, then a [result] or an [error], then the
    [id]. *)
Lemma handleRequest_shape request log response log' :
  Js.nullish request = false ->
  handleRequest env resend TypeError_message request log
  = (Normal response, log') ->
  exists member,
    response = JObj [("jsonrpc", JStr "2.0"); member;
                     ("id", Js.prop request "id")]
    /\ (fst member = "result" \/ fst member = "error").
Proof.
  intros Hn.
  destruct (Js.is_string (Js.prop request "method") "initialize") eqn:E1.
  { apply is_string_true in E1.
    rewrite (handleRequest_initialize env resend TypeError_message request log E1).
    intros H. injection H as <- <-. eexists. split; [reflexivity|]. now left. }
  destruct (Js.is_string (Js.prop request "method") "tools/list") eqn:E2.
  { apply is_string_true in E2.
    rewrite (handleRequest_tools_list env resend TypeError_message request log E2).
    intros H. injection H as <- <-. eexists. split; [reflexivity|]. now left. }
  destruct (Js.is_string (Js.prop request "method") "tools/call") eqn:E3.
  { apply is_string_true in E3.
    rewrite (handleRequest_tools_call env resend TypeError_message request log E3).
    destruct (handleCallTool env resend (Js.prop request "params") log)
      as [[result|error] l].
    - intros H. injection H as <- <-.
      eexists. split; [reflexivity|]. now left.
    - destruct error as [message|cause|v]; cbn [Spec.answered];
        try destruct (Js.nullish v); try discriminate;
        intros H; injection H as <- <-;
        eexists; (split; [reflexivity|]); now right. }
  rewrite (handleRequest_other env resend TypeError_message request log Hn).
  - intros H. injection H as <- <-. eexists. split; [reflexivity|]. now right.
  - intros N. apply is_string_true in N. congruence.
  - intros N. apply is_string_true in N. congruence.
  - intros N. apply is_string_true in N. congruence.
Qed.

(** A request object is answered when whatever the provider throws has a
    [message] that can be read. *)
Lemma handleRequest_answers request log :
  Spec.throws_readable resend ->
  Js.nullish request = false ->
  exists response log',
    handleRequest env resend TypeError_message request log
    = (Normal response, log').
Proof.
  intros [Hsend Hlist] Hn. unfold handleRequest, try_catch.
  match goal with
  | |- context [let (_, _) := ?m log in _] =>
      destruct (m log) as [[a|e] l] eqn:Hbody
  end; [eauto|].
  assert (He : Spec.readable e = true).
  { revert Hbody. unfold bind at 1.
    rewrite (member_defined _ _ _ Hn).
    destruct (Js.is_string (Js.prop request "method") "initialize").
    { unfold handleInitialize, bind, ret, member, RequireObjectCoercible.
      rewrite Hn. discriminate. }
    destruct (Js.is_string (Js.prop request "method") "tools/list").
    { unfold handleListTools, bind, ret, member, RequireObjectCoercible.
      rewrite Hn. discriminate. }
    destruct (Js.is_string (Js.prop request "method") "tools/call").
    - rewrite bind_member_defined by exact Hn. unfold bind at 1.
      destruct (handleCallTool env resend (Js.prop request "params") log)
        as [[result|error] l0] eqn:Hc.
      + rewrite bind_member_defined by exact Hn. discriminate.
      + intros H. injection H as <- <-.
        apply (handleCallTool_thrown env resend Spec.readable _ _ _ _
                 (fun _ => eq_refl) (fun _ => eq_refl) Hsend Hlist Hc).
    - rewrite bind_member_defined by exact Hn. discriminate. }
  pose proof (catch_answered TypeError_message request e l Hn) as Hc.
  rewrite (answered_readable TypeError_message request e He) in Hc.
  eexists. eexists. exact Hc.
Qed.

End CallFacts.

Section ListFacts.

Import McpJsonRpcServer.

Variable env : ProcessEnv.
Variable resend : Resend.
Variable TypeError_message : TypeErrorCause -> string.

Lemma audiences_listed_pure response log log0 :
  audiences_listed response log = (fst (audiences_listed response log0), log).
Proof.
  unfold audiences_listed, member, RequireObjectCoercible, bind, ret, throw.
  destruct (Js.nullish response); [reflexivity|].
  destruct (Js.truthy _); reflexivity.
Qed.

Lemma handleCallTool_list_audiences params log :
  Js.prop params "name" = JStr "list-audiences" ->
  handleCallTool env resend params log
  = bind (resend_audiences_list resend) audiences_listed log.
Proof.
  intros H. unfold handleCallTool.
  unfold bind at 1, RequireObjectCoercible.
  rewrite (prop_string_not_nullish _ _ _ H), H. reflexivity.
Qed.

(** What the dispatcher answers to a [list-audiences] call, by the
    completion of the provider. *)
Lemma handleRequest_list_audiences request log :
  Js.prop request "method" = JStr "tools/call" ->
  Js.prop (Js.prop request "params") "name" = JStr "list-audiences" ->
  handleRequest env resend TypeError_message request log
  = match audiences_list resend with
    | Normal response =>
        match fst (audiences_listed response log) with
        | Normal result =>
            (Normal (result_response result (Js.prop request "id")),
             (log ++ [AudiencesList])%list)
        | Abrupt error =>
            (Spec.answered TypeError_message request error,
             (log ++ [AudiencesList])%list)
        end
    | Abrupt error =>
        (Spec.answered TypeError_message request error,
         (log ++ [AudiencesList])%list)
    end.
Proof.
  intros Hm Hname.
  rewrite (handleRequest_tools_call env resend TypeError_message request log Hm).
  rewrite (handleCallTool_list_audiences _ _ Hname).
  unfold bind at 1, resend_audiences_list.
  destruct (audiences_list resend) as [response|error]; [|reflexivity].
  rewrite (audiences_listed_pure response (log ++ [AudiencesList])%list log).
  destruct (fst (audiences_listed response log)); reflexivity.
Qed.

End ListFacts.

(* ================================================================= *)
(** ** Further properties of the dispatcher *)

Import McpJsonRpcServer.

(** X1: an [initialize] request is answered with the fixed descriptor as
    [result], whatever its [params], the configuration and the provider; the
    response has no [error] and no provider call is made. *)
Theorem initialize_never_fails
    (env : ProcessEnv) (resend : Resend)
    (TypeError_message : TypeErrorCause -> string)
    (request : JsVal) (log : list ProviderCall) :
  Js.prop request "method" = JStr "initialize" ->
  exists result response,
    handleRequest env resend TypeError_message request log
    = (Normal response, log)
    /\ response = result_response result (Js.prop request "id")
    /\ Js.hasOwn response "error" = false
    /\ Js.prop result "protocolVersion" = JStr "2024-11-05"
    /\ Js.prop (Js.prop result "capabilities") "tools" = JObj []
    /\ Js.prop result "serverInfo"
       = JObj [("name", JStr "resend-email-service");
               ("version", JStr "1.0.0")].
Proof.
  intros Hm.
  rewrite (handleRequest_initialize env resend TypeError_message request log Hm).
  do 2 eexists. split; [reflexivity|]. repeat split.
Qed.

Lemma initialize_never_fails_witness :
  exists result response,
    handleRequest Samples.env_bare Samples.throwing Samples.TypeError_message
      (Samples.request "initialize" JUndefined (JStr "init")) []
    = (Normal response, [])
    /\ response = result_response result (JStr "init")
    /\ Js.hasOwn response "error" = false
    /\ Js.prop result "protocolVersion" = JStr "2024-11-05"
    /\ Js.prop (Js.prop result "capabilities") "tools" = JObj []
    /\ Js.prop result "serverInfo"
       = JObj [("name", JStr "resend-email-service");
               ("version", JStr "1.0.0")].
Proof.
  apply (initialize_never_fails Samples.env_bare Samples.throwing
           Samples.TypeError_message
           (Samples.request "initialize" JUndefined (JStr "init")) []).
  reflexivity.
Defined.

(** X2: a [send-email] call that gives no [from] while no default sender is
    configured is answered with error -32603 and the message
    [from argument must be provided.]; the provider is not called. *)
Theorem send_email_without_sender_rejected
    (env : ProcessEnv) (resend : Resend)
    (TypeError_message : TypeErrorCause -> string)
    (request : JsVal) (log : list ProviderCall) :
  Js.prop request "method" = JStr "tools/call" ->
  Js.prop (Js.prop request "params") "name" = JStr "send-email" ->
  Js.nullish (Js.prop (Js.prop request "params") "arguments") = false ->
  Js.nullish
    (Js.prop (Js.prop (Js.prop request "params") "arguments") "from") = true ->
  Spec.configured (SENDER_EMAIL_ADDRESS env) = false ->
  handleRequest env resend TypeError_message request log
  = (Normal (error_response (-32603) (JStr "from argument must be provided.")
               (Js.prop request "id")), log).
Proof.
  intros Hm Hname Hargs Hfrom Hcfg.
  rewrite (handleRequest_send_email_rejected env resend TypeError_message
             request log (NewError "from argument must be provided.") Hm Hname).
  - reflexivity.
  - apply build_emailRequest_no_sender; [exact Hargs|].
    unfold Js.coalesce. rewrite Hfrom, senderEmailAddress_truthy. exact Hcfg.
Qed.

Lemma send_email_without_sender_rejected_witness :
  handleRequest Samples.env_bare Samples.accepting Samples.TypeError_message
    (Samples.tools_call "send-email" Samples.plain_args (JNum 4)) []
  = (Normal (error_response (-32603) (JStr "from argument must be provided.")
               (JNum 4)), []).
Proof.
  apply (send_email_without_sender_rejected Samples.env_bare Samples.accepting
           Samples.TypeError_message
           (Samples.tools_call "send-email" Samples.plain_args (JNum 4)) []);
    reflexivity.
Defined.

(** X3: a [tools/call] without [params], and a [send-email] call without
    [arguments], fail on the destructuring: the answer is error -32603 with
    the message of the runtime's TypeError ([Internal error] when that is
    empty), and the provider is not called. *)
Theorem tools_call_without_arguments_rejected
    (env : ProcessEnv) (resend : Resend)
    (TypeError_message : TypeErrorCause -> string)
    (request : JsVal) (log : list ProviderCall) :
  Js.prop request "method" = JStr "tools/call" ->
  let params := Js.prop request "params" in
  let args := Js.prop params "arguments" in
  (Js.nullish params = true ->
   handleRequest env resend TypeError_message request log
   = (Normal (error_response (-32603)
                (Js.logical_or
                   (JStr (TypeError_message (NullishAccess params "name")))
                   (JStr "Internal error"))
                (Js.prop request "id")), log))
  /\ (Js.prop params "name" = JStr "send-email" ->
      Js.nullish args = true ->
      handleRequest env resend TypeError_message request log
      = (Normal (error_response (-32603)
                   (Js.logical_or
                      (JStr (TypeError_message (NullishAccess args "from")))
                      (JStr "Internal error"))
                   (Js.prop request "id")), log)).
Proof.
  intros Hm params args. split.
  - intros Hn.
    rewrite (handleRequest_tools_call env resend TypeError_message request log Hm).
    fold params. unfold handleCallTool, RequireObjectCoercible, bind, throw.
    rewrite Hn. reflexivity.
  - intros Hname Hn.
    rewrite (handleRequest_send_email_rejected env resend TypeError_message
               request log (TypeError (NullishAccess args "from")) Hm Hname).
    + reflexivity.
    + apply build_emailRequest_nullish. exact Hn.
Qed.

Lemma tools_call_without_arguments_rejected_witness :
  handleRequest Samples.env_with_defaults Samples.accepting
    Samples.TypeError_message
    (JObj [("jsonrpc", JStr "2.0"); ("method", JStr "tools/call");
           ("id", JNum 6)]) []
  = (Normal (error_response (-32603)
               (Js.logical_or
                  (JStr (Samples.TypeError_message
                           (NullishAccess JUndefined "name")))
                  (JStr "Internal error"))
               (JNum 6)), [])
  /\ handleRequest Samples.env_with_defaults Samples.accepting
       Samples.TypeError_message
       (Samples.request "tools/call" (JObj [("name", JStr "send-email")])
          (JNum 6)) []
     = (Normal (error_response (-32603)
                  (Js.logical_or
                     (JStr (Samples.TypeError_message
                              (NullishAccess JUndefined "from")))
                     (JStr "Internal error"))
                  (JNum 6)), []).
Proof.
  split.
  - apply (proj1 (tools_call_without_arguments_rejected
             Samples.env_with_defaults Samples.accepting
             Samples.TypeError_message
             (JObj [("jsonrpc", JStr "2.0"); ("method", JStr "tools/call");
                    ("id", JNum 6)]) [] eq_refl)).
    reflexivity.
  - apply (proj2 (tools_call_without_arguments_rejected
             Samples.env_with_defaults Samples.accepting
             Samples.TypeError_message
             (Samples.request "tools/call" (JObj [("name", JStr "send-email")])
                (JNum 6)) [] eq_refl)); reflexivity.
Defined.

(** X4: in a validated [send-email] call, a provider response without a
    truthy [error] gives the result text [Email sent successfully! ] followed
    by the serialized [data], which reads [undefined] when the response has no
    [data]; a provider that resolves to [undefined] or [null] is reported as
    error -32603.  In both cases the provider has been called once. *)
Theorem send_email_success
    (env : ProcessEnv) (resend : Resend)
    (TypeError_message : TypeErrorCause -> string)
    (request : JsVal) (log : list ProviderCall)
    (emailRequest response : JsVal) :
  Js.prop request "method" = JStr "tools/call" ->
  Js.prop (Js.prop request "params") "name" = JStr "send-email" ->
  build_emailRequest env
    (Js.prop (Js.prop request "params") "arguments") log
  = (Normal emailRequest, log) ->
  emails_send resend emailRequest = Normal response ->
  (Js.nullish response = false ->
   Js.truthy (Js.prop response "error") = false ->
   handleRequest env resend TypeError_message request log
   = (Normal (result_response
                (text_content
                   ("Email sent successfully! "
                    ++ Js.interpolate
                         (Js.JSON_stringify (Js.prop response "data"))))
                (Js.prop request "id")),
      (log ++ [EmailsSend emailRequest])%list)
   /\ (Js.prop response "data" = JUndefined ->
       fst (handleRequest env resend TypeError_message request log)
       = Normal (result_response
                   (text_content "Email sent successfully! undefined")
                   (Js.prop request "id"))))
  /\ (Js.nullish response = true ->
      handleRequest env resend TypeError_message request log
      = (Normal (Spec.caught TypeError_message request
                   (TypeError (NullishAccess response "error"))),
         (log ++ [EmailsSend emailRequest])%list)).
Proof.
  intros Hm Hname Hb Hs.
  destruct (handleRequest_send_email env resend TypeError_message
              request log emailRequest Hm Hname Hb) as (_ & Hret & _).
  specialize (Hret response Hs).
  split.
  - intros Hn Herr.
    assert (E : email_sent response log
                = (Normal (text_content
                     ("Email sent successfully! "
                      ++ Js.interpolate
                           (Js.JSON_stringify (Js.prop response "data")))), log)).
    { unfold email_sent, member, RequireObjectCoercible, bind, ret, throw.
      now rewrite Hn, Herr. }
    rewrite E in Hret. simpl in Hret. split; [exact Hret|].
    intros Hd. rewrite Hret, Hd. reflexivity.
  - intros Hn.
    assert (E : email_sent response log
                = (Abrupt (TypeError (NullishAccess response "error")), log)).
    { unfold email_sent, member, RequireObjectCoercible, bind, ret, throw.
      now rewrite Hn. }
    rewrite E in Hret. exact Hret.
Qed.

Lemma send_email_success_witness :
  handleRequest Samples.env_with_defaults Samples.accepting
    Samples.TypeError_message
    (Samples.tools_call "send-email" Samples.plain_args (JNum 8)) []
  = (Normal (result_response
               (text_content
                  ("Email sent successfully! "
                   ++ Js.interpolate
                        (Js.JSON_stringify (JObj [("id", JStr "e1")]))))
               (JNum 8)),
     [EmailsSend
        (JObj [("to", JStr "a@b.com"); ("subject", JStr "hi");
               ("text", JStr "hello");
               ("from", JStr "noreply@example.com");
               ("replyTo", JArr [JStr "help@example.com";
                                 JStr "ops@example.com"])])]).
Proof.
  apply (proj1 (send_email_success Samples.env_with_defaults Samples.accepting
           Samples.TypeError_message
           (Samples.tools_call "send-email" Samples.plain_args (JNum 8)) []
           _ _ eq_refl eq_refl eq_refl eq_refl)); reflexivity.
Defined.

(** X5: a [list-audiences] call never reads its [arguments]: whatever they
    are, also when they are missing, the provider's list operation is called
    exactly once and its send operation is not; a response without a truthy
    [error] gives the result text [Audiences found: ] followed by the
    serialized [data]. *)
Theorem list_audiences_ignores_arguments
    (env : ProcessEnv) (resend : Resend)
    (TypeError_message : TypeErrorCause -> string)
    (request : JsVal) (log : list ProviderCall) :
  Js.prop request "method" = JStr "tools/call" ->
  Js.prop (Js.prop request "params") "name" = JStr "list-audiences" ->
  snd (handleRequest env resend TypeError_message request log)
  = (log ++ [AudiencesList])%list
  /\ (forall response,
        audiences_list resend = Normal response ->
        Js.nullish response = false ->
        Js.truthy (Js.prop response "error") = false ->
        fst (handleRequest env resend TypeError_message request log)
        = Normal (result_response
                    (text_content
                       ("Audiences found: "
                        ++ Js.interpolate
                             (Js.JSON_stringify (Js.prop response "data"))))
                    (Js.prop request "id"))).
Proof.
  intros Hm Hname.
  rewrite (handleRequest_list_audiences env resend TypeError_message
             request log Hm Hname).
  split.
  - destruct (audiences_list resend) as [response|error]; [|reflexivity].
    now destruct (fst (audiences_listed response log)).
  - intros response Hr Hn Herr. rewrite Hr.
    unfold audiences_listed, member, RequireObjectCoercible, bind, ret, throw.
    rewrite Hn, Herr. reflexivity.
Qed.

Lemma list_audiences_ignores_arguments_witness :
  snd (handleRequest Samples.env_bare Samples.accepting
         Samples.TypeError_message
         (Samples.request "tools/call" (JObj [("name", JStr "list-audiences")])
            (JNum 1)) [])
  = [AudiencesList]
  /\ fst (handleRequest Samples.env_bare Samples.accepting
            Samples.TypeError_message
            (Samples.request "tools/call"
               (JObj [("name", JStr "list-audiences")]) (JNum 1)) [])
     = Normal (result_response (text_content "Audiences found: []") (JNum 1)).
Proof.
  destruct (list_audiences_ignores_arguments Samples.env_bare Samples.accepting
              Samples.TypeError_message
              (Samples.request "tools/call"
                 (JObj [("name", JStr "list-audiences")]) (JNum 1)) []
              eq_refl eq_refl) as [Hlog Hres].
  split; [exact Hlog|].
  exact (Hres _ eq_refl eq_refl eq_refl).
Defined.

(** X6: when the provider's list operation returns a response whose [error]
    is truthy, the answer is error -32603 with the message
    [Failed to list audiences: ] followed by the serialized error.  When the
    operation throws an [Error], or any value but [undefined] and [null], the
    answer is error -32603 with the [message] of what was thrown (or
    [Internal error] when that is not truthy); when it throws [undefined] or
    [null], reading the message throws in turn and [handleRequest] itself
    throws a TypeError.  In every case the list operation has been called. *)
Theorem list_audiences_failure
    (env : ProcessEnv) (resend : Resend)
    (TypeError_message : TypeErrorCause -> string)
    (request : JsVal) (log : list ProviderCall) :
  Js.prop request "method" = JStr "tools/call" ->
  Js.prop (Js.prop request "params") "name" = JStr "list-audiences" ->
  (forall response,
      audiences_list resend = Normal response ->
      Js.truthy (Js.prop response "error") = true ->
      exists serialized,
        Js.JSON_stringify (Js.prop response "error") = Some serialized
        /\ handleRequest env resend TypeError_message request log
           = (Normal (error_response (-32603)
                        (JStr ("Failed to list audiences: " ++ serialized))
                        (Js.prop request "id")),
              (log ++ [AudiencesList])%list))
  /\ (forall error,
        audiences_list resend = Abrupt error ->
        Spec.readable error = true ->
        handleRequest env resend TypeError_message request log
        = (Normal (error_response (-32603)
                     (Js.logical_or (Spec.message TypeError_message error)
                        (JStr "Internal error"))
                     (Js.prop request "id")),
           (log ++ [AudiencesList])%list))
  /\ (forall v,
        audiences_list resend = Abrupt (Value v) ->
        Js.nullish v = true ->
        handleRequest env resend TypeError_message request log
        = (Abrupt (TypeError (NullishAccess v "message")),
           (log ++ [AudiencesList])%list)).
Proof.
  intros Hm Hname.
  rewrite (handleRequest_list_audiences env resend TypeError_message
             request log Hm Hname).
  split; [|split].
  - intros response Hr Herr. rewrite Hr.
    destruct (stringify_truthy _ Herr) as [serialized Hs].
    exists serialized. split; [exact Hs|].
    assert (Hn : Js.nullish response = false).
    { apply prop_defined_not_nullish with (k := "error").
      intros E. rewrite E in Herr. discriminate. }
    unfold audiences_listed, member, RequireObjectCoercible, bind, ret, throw.
    rewrite Hn, Herr, Hs. reflexivity.
  - intros error He Hread. rewrite He.
    rewrite (answered_readable TypeError_message request error Hread).
    reflexivity.
  - intros v He Hv. rewrite He. cbn [Spec.answered]. rewrite Hv. reflexivity.
Qed.

Lemma list_audiences_failure_witness :
  (exists serialized,
      Js.JSON_stringify (JObj [("message", JStr "bad")]) = Some serialized
      /\ handleRequest Samples.env_bare Samples.rejecting
           Samples.TypeError_message
           (Samples.tools_call "list-audiences" JNull (JNum 1)) []
         = (Normal (error_response (-32603)
                      (JStr ("Failed to list audiences: " ++ serialized))
                      (JNum 1)), [AudiencesList]))
  /\ handleRequest Samples.env_bare Samples.throwing
       Samples.TypeError_message
       (Samples.tools_call "list-audiences" JNull (JNum 1)) []
     = (Normal (error_response (-32603) (JStr "socket hang up") (JNum 1)),
        [AudiencesList])
  /\ handleRequest Samples.env_bare Samples.rejecting_with_null
       Samples.TypeError_message
       (Samples.tools_call "list-audiences" JNull (JNum 1)) []
     = (Abrupt (TypeError (NullishAccess JNull "message")), [AudiencesList]).
Proof.
  split; [|split].
  - apply (proj1 (list_audiences_failure Samples.env_bare Samples.rejecting
             Samples.TypeError_message
             (Samples.tools_call "list-audiences" JNull (JNum 1)) []
             eq_refl eq_refl)
             (JObj [("error", JObj [("message", JStr "bad")])]));
      reflexivity.
  - apply (proj1 (proj2 (list_audiences_failure Samples.env_bare
             Samples.throwing Samples.TypeError_message
             (Samples.tools_call "list-audiences" JNull (JNum 1)) []
             eq_refl eq_refl)) (NewError "socket hang up"));
      reflexivity.
  - apply (proj2 (proj2 (list_audiences_failure Samples.env_bare
             Samples.rejecting_with_null Samples.TypeError_message
             (Samples.tools_call "list-audiences" JNull (JNum 1)) []
             eq_refl eq_refl)) JNull);
      reflexivity.
Defined.

(** X7: a request makes at most one provider call.  [handleRequest] only
    appends to the call log, and neither its outcome nor the call it makes
    depends on the calls made before: nothing is retried and no state is
    carried from one request to the next. *)
Theorem handleRequest_at_most_one_call
    (env : ProcessEnv) (resend : Resend)
    (TypeError_message : TypeErrorCause -> string)
    (request : JsVal) (log : list ProviderCall) :
  exists calls,
    snd (handleRequest env resend TypeError_message request log)
    = (log ++ calls)%list
    /\ length calls <= 1
    /\ calls = Spec.calls (handleRequest env resend TypeError_message request)
    /\ fst (handleRequest env resend TypeError_message request log)
       = fst (handleRequest env resend TypeError_message request []).
Proof.
  exists (Spec.calls (handleRequest env resend TypeError_message request)).
  rewrite (framed_handleRequest env resend TypeError_message request log).
  repeat split. apply handleRequest_calls_bound.
Qed.

(** X8: the provider is reached only through a [tools/call] that names a
    registered tool: its send operation only by [send-email], with the
    [emailRequest] assembled from the arguments, and its list operation only
    by [list-audiences]. *)
Theorem provider_called_only_for_registered_tool
    (env : ProcessEnv) (resend : Resend)
    (TypeError_message : TypeErrorCause -> string)
    (request : JsVal) (log : list ProviderCall) (call : ProviderCall) :
  snd (handleRequest env resend TypeError_message request log)
  = (log ++ [call])%list ->
  Js.prop request "method" = JStr "tools/call"
  /\ match call with
     | EmailsSend emailRequest =>
         Js.prop (Js.prop request "params") "name" = JStr "send-email"
         /\ build_emailRequest env
              (Js.prop (Js.prop request "params") "arguments") log
            = (Normal emailRequest, log)
     | AudiencesList =>
         Js.prop (Js.prop request "params") "name" = JStr "list-audiences"
     end.
Proof.
  intros H.
  rewrite (framed_handleRequest env resend TypeError_message request log) in H.
  simpl in H. apply app_inv_head in H.
  rewrite handleRequest_calls in H.
  destruct (Js.nullish request); [discriminate|].
  destruct (Js.is_string (Js.prop request "method") "tools/call") eqn:Hm;
    [|discriminate].
  apply is_string_true in Hm. split; [exact Hm|].
  rewrite handleCallTool_calls in H.
  destruct (Js.nullish (Js.prop request "params")); [discriminate|].
  destruct (Js.is_string (Js.prop (Js.prop request "params") "name")
              "send-email") eqn:Hs.
  - apply is_string_true in Hs.
    destruct (fst (build_emailRequest env
                     (Js.prop (Js.prop request "params") "arguments") []))
      as [emailRequest|error] eqn:Hb; [|discriminate].
    injection H as <-. split; [exact Hs|].
    rewrite (build_emailRequest_pure env _ log []), Hb. reflexivity.
  - destruct (Js.is_string (Js.prop (Js.prop request "params") "name")
                "list-audiences") eqn:Hl; [|discriminate].
    apply is_string_true in Hl. injection H as <-. exact Hl.
Qed.

Lemma provider_called_only_for_registered_tool_witness :
  snd (handleRequest Samples.env_with_defaults Samples.rejecting
         Samples.TypeError_message
         (Samples.tools_call "send-email" Samples.plain_args (JNum 1))
         [AudiencesList])
  = [AudiencesList;
     EmailsSend
       (JObj [("to", JStr "a@b.com"); ("subject", JStr "hi");
              ("text", JStr "hello");
              ("from", JStr "noreply@example.com");
              ("replyTo", JArr [JStr "help@example.com";
                                JStr "ops@example.com"])])]
  /\ Js.prop (Samples.tools_call "send-email" Samples.plain_args (JNum 1))
       "method"
     = JStr "tools/call"
  /\ Js.prop (Js.prop (Samples.tools_call "send-email" Samples.plain_args
                         (JNum 1)) "params") "name"
     = JStr "send-email".
Proof.
  split; [reflexivity|].
  destruct (provider_called_only_for_registered_tool
              Samples.env_with_defaults Samples.rejecting
              Samples.TypeError_message
              (Samples.tools_call "send-email" Samples.plain_args (JNum 1))
              [AudiencesList]
              (EmailsSend
                 (JObj [("to", JStr "a@b.com"); ("subject", JStr "hi");
                        ("text", JStr "hello");
                        ("from", JStr "noreply@example.com");
                        ("replyTo", JArr [JStr "help@example.com";
                                          JStr "ops@example.com"])]))
              eq_refl) as (Hm & Hname & _).
  split; [exact Hm | exact Hname].
Defined.

(** X9: the dispatcher uses two error codes only.  The response to a request
    object carries -32601 exactly when the method is none of [initialize],
    [tools/list] and [tools/call]; any other error is -32603; [initialize] and
    [tools/list] never give an error. *)
Theorem error_codes
    (env : ProcessEnv) (resend : Resend)
    (TypeError_message : TypeErrorCause -> string)
    (request : JsVal) (log log' : list ProviderCall) (response : JsVal) :
  Js.nullish request = false ->
  handleRequest env resend TypeError_message request log
  = (Normal response, log') ->
  (Spec.error_code response = Some (-32601)%Z
   <-> (Js.prop request "method" <> JStr "initialize"
        /\ Js.prop request "method" <> JStr "tools/list"
        /\ Js.prop request "method" <> JStr "tools/call"))
  /\ (forall code, Spec.error_code response = Some code ->
                   code = (-32601)%Z \/ code = (-32603)%Z)
  /\ (Js.prop request "method" = JStr "initialize"
      \/ Js.prop request "method" = JStr "tools/list" ->
      Spec.error_code response = None
      /\ Js.hasOwn response "error" = false).
Proof.
  intros Hn H.
  destruct (Js.is_string (Js.prop request "method") "initialize") eqn:E1.
  { apply is_string_true in E1.
    rewrite (handleRequest_initialize env resend TypeError_message request log E1)
      in H. injection H as <- <-. rewrite E1.
    split; [split; [discriminate | intros (N & _); now elim N]|].
    split; [discriminate|]. intros _. split; reflexivity. }
  destruct (Js.is_string (Js.prop request "method") "tools/list") eqn:E2.
  { apply is_string_true in E2.
    rewrite (handleRequest_tools_list env resend TypeError_message request log E2)
      in H. injection H as <- <-. rewrite E2.
    split; [split; [discriminate | intros (_ & N & _); now elim N]|].
    split; [discriminate|]. intros _. split; reflexivity. }
  destruct (Js.is_string (Js.prop request "method") "tools/call") eqn:E3.
  { apply is_string_true in E3.
    rewrite (handleRequest_tools_call env resend TypeError_message request log E3)
      in H. rewrite E3.
    split; [|split; [|intros [N|N]; discriminate N]].
    - split; [|intros (_ & _ & N); now elim N].
      destruct (handleCallTool env resend (Js.prop request "params") log)
        as [[result|error] l] eqn:Hc.
      + injection H as <- <-. discriminate.
      + injection H as Ha <-.
        apply (answered_inv TypeError_message) in Ha. subst response.
        change (Spec.error_code (Spec.caught TypeError_message request error))
          with (Some (-32603)%Z).
        discriminate.
    - destruct (handleCallTool env resend (Js.prop request "params") log)
        as [[result|error] l] eqn:Hc.
      + injection H as <- <-. discriminate.
      + injection H as Ha <-.
        apply (answered_inv TypeError_message) in Ha. subst response.
        change (Spec.error_code (Spec.caught TypeError_message request error))
          with (Some (-32603)%Z).
        intros code Hcode. injection Hcode as <-. now right. }
  assert (N1 : Js.prop request "method" <> JStr "initialize").
  { intros N. apply is_string_true in N. congruence. }
  assert (N2 : Js.prop request "method" <> JStr "tools/list").
  { intros N. apply is_string_true in N. congruence. }
  assert (N3 : Js.prop request "method" <> JStr "tools/call").
  { intros N. apply is_string_true in N. congruence. }
  rewrite (handleRequest_other env resend TypeError_message request log
             Hn N1 N2 N3) in H.
  injection H as <- <-.
  split; [split; [auto | reflexivity]|].
  split.
  - intros code Hcode. injection Hcode as <-. now left.
  - intros [N|N]; contradiction.
Qed.

Lemma error_codes_witness :
  (Spec.error_code
     (error_response (-32601) (JStr "Method not found") (JNum 1))
   = Some (-32601)%Z
   <-> (JStr "ping" <> JStr "initialize"
        /\ JStr "ping" <> JStr "tools/list"
        /\ JStr "ping" <> JStr "tools/call"))
  /\ (forall code,
        Spec.error_code
          (error_response (-32601) (JStr "Method not found") (JNum 1))
        = Some code ->
        code = (-32601)%Z \/ code = (-32603)%Z).
Proof.
  destruct (error_codes Samples.env_bare Samples.accepting
              Samples.TypeError_message
              (Samples.request "ping" JUndefined (JNum 1)) [] []
              (error_response (-32601) (JStr "Method not found") (JNum 1))
              eq_refl eq_refl) as (H1 & H2 & _).
  split; [exact H1 | exact H2].
Defined.

(** X10: the answer depends on the [method], [params] and [id] of the
    request only: the [jsonrpc] member is never checked, and any other member
    is ignored. *)
Theorem handleRequest_reads_method_params_id
    (env : ProcessEnv) (resend : Resend)
    (TypeError_message : TypeErrorCause -> string)
    (request request' : JsVal) (log : list ProviderCall) :
  Js.nullish request = false ->
  Js.nullish request' = false ->
  Js.prop request "method" = Js.prop request' "method" ->
  Js.prop request "params" = Js.prop request' "params" ->
  Js.prop request "id" = Js.prop request' "id" ->
  handleRequest env resend TypeError_message request log
  = handleRequest env resend TypeError_message request' log.
Proof.
  intros Hn Hn' Hm Hp Hi.
  unfold handleRequest, member, RequireObjectCoercible, try_catch, bind.
  rewrite Hn, Hn', Hm, Hp, Hi. reflexivity.
Qed.

Lemma handleRequest_reads_method_params_id_witness :
  handleRequest Samples.env_with_defaults Samples.accepting
    Samples.TypeError_message
    (Samples.tools_call "send-email" Samples.plain_args (JNum 1)) []
  = handleRequest Samples.env_with_defaults Samples.accepting
      Samples.TypeError_message
      (JObj [("id", JNum 1); ("jsonrpc", JStr "1.0"); ("extra", JBool true);
             ("method", JStr "tools/call");
             ("params", JObj [("name", JStr "send-email");
                              ("arguments", Samples.plain_args)])]) [].
Proof.
  apply (handleRequest_reads_method_params_id Samples.env_with_defaults
           Samples.accepting Samples.TypeError_message
           (Samples.tools_call "send-email" Samples.plain_args (JNum 1))
           (JObj [("id", JNum 1); ("jsonrpc", JStr "1.0"); ("extra", JBool true);
                  ("method", JStr "tools/call");
                  ("params", JObj [("name", JStr "send-email");
                                   ("arguments", Samples.plain_args)])]) []);
    reflexivity.
Defined.

(** X11: the [POST /mcp] route always writes a response.  When
    [handleRequest] returns, the route writes what it returns with status 200,
    also when that is a JSON-RPC error; when [handleRequest] throws, the route
    writes status 500 with error -32603, [Internal error] and a [null] id.
    [handleRequest] throws without a body, before any provider call; for a
    body that is neither [undefined] nor [null] it returns, provided whatever
    the provider throws has a [message] that can be read. *)
Theorem post_mcp_always_responds
    (env : ProcessEnv) (resend : Resend)
    (TypeError_message : TypeErrorCause -> string)
    (req_body : JsVal) (log : list ProviderCall) :
  exists http log',
    HttpBridge.post_mcp env resend TypeError_message req_body log
    = (Normal http, log')
    /\ match handleRequest env resend TypeError_message req_body log with
       | (Normal response, l) =>
           http = HttpBridge.res_json response /\ log' = l
       | (Abrupt _, l) =>
           http
           = HttpBridge.res_status_json 500
               (JObj [("jsonrpc", JStr "2.0");
                      ("error", JObj [("code", JNum (-32603));
                                      ("message", JStr "Internal error")]);
                      ("id", JNull)])
           /\ log' = l
       end
    /\ (Js.nullish req_body = true ->
        log' = log
        /\ http
           = HttpBridge.res_status_json 500
               (JObj [("jsonrpc", JStr "2.0");
                      ("error", JObj [("code", JNum (-32603));
                                      ("message", JStr "Internal error")]);
                      ("id", JNull)]))
    /\ (Js.nullish req_body = false ->
        Spec.throws_readable resend ->
        HttpBridge.status http = 200%Z
        /\ handleRequest env resend TypeError_message req_body log
           = (Normal (HttpBridge.body http), log')).
Proof.
  unfold HttpBridge.post_mcp, try_catch, bind at 1.
  destruct (Js.nullish req_body) eqn:Hn.
  - assert (E : handleRequest env resend TypeError_message req_body log
                = (Abrupt (TypeError (NullishAccess req_body "id")), log)).
    { unfold handleRequest, try_catch, member, RequireObjectCoercible, bind,
        throw, message_of, ret. rewrite Hn. reflexivity. }
    rewrite E. do 2 eexists. split; [reflexivity|].
    split; [split; reflexivity|].
    split; [|discriminate]. intros _. split; reflexivity.
  - destruct (handleRequest env resend TypeError_message req_body log)
      as [[response|error] l] eqn:E.
    + do 2 eexists. split; [reflexivity|].
      split; [split; reflexivity|].
      split; [discriminate|]. intros _ _. split; reflexivity.
    + do 2 eexists. split; [reflexivity|].
      split; [split; reflexivity|].
      split; [discriminate|]. intros _ Hthrows.
      destruct (handleRequest_answers env resend TypeError_message req_body log
                  Hthrows Hn) as (response & l' & E').
      rewrite E in E'. discriminate E'.
Qed.

Lemma post_mcp_always_responds_witness :
  HttpBridge.post_mcp Samples.env_bare Samples.accepting
    Samples.TypeError_message JUndefined []
  = (Normal (HttpBridge.res_status_json 500
               (JObj [("jsonrpc", JStr "2.0");
                      ("error", JObj [("code", JNum (-32603));
                                      ("message", JStr "Internal error")]);
                      ("id", JNull)])), [])
  /\ HttpBridge.post_mcp Samples.env_bare Samples.rejecting_with_null
       Samples.TypeError_message
       (Samples.tools_call "list-audiences" JUndefined (JNum 1)) []
     = (Normal (HttpBridge.res_status_json 500
                  (JObj [("jsonrpc", JStr "2.0");
                         ("error", JObj [("code", JNum (-32603));
                                         ("message", JStr "Internal error")]);
                         ("id", JNull)])), [AudiencesList]).
Proof.
  split.
  - destruct (post_mcp_always_responds Samples.env_bare Samples.accepting
                Samples.TypeError_message JUndefined [])
      as (http & log' & E & _ & H & _).
    destruct (H eq_refl) as [-> ->]. exact E.
  - destruct (post_mcp_always_responds Samples.env_bare
                Samples.rejecting_with_null Samples.TypeError_message
                (Samples.tools_call "list-audiences" JUndefined (JNum 1)) [])
      as (http & log' & E & [-> ->] & _).
    exact E.
Defined.

(* ================================================================= *)
(** ** Further properties of the configuration and of the registry *)

Section SplitFacts.

Lemma join_split_comma (s : string) : Js.join "," (split_comma s) = s.
Proof.
  induction s as [|c r IH]; [reflexivity|].
  cbn [split_comma].
  destruct (Ascii.eqb c ",") eqn:E.
  - apply Ascii.eqb_eq in E. subst c.
    destruct (split_comma r) as [|h t] eqn:Hs;
      [now apply split_comma_nonempty in Hs|].
    cbn [Js.join] in *. rewrite <- IH. reflexivity.
  - destruct (split_comma r) as [|h t] eqn:Hs;
      [now apply split_comma_nonempty in Hs|].
    destruct t as [|h' t']; cbn [Js.join] in *; rewrite <- IH; reflexivity.
Qed.

Lemma split_comma_no_comma (s : string) :
  Forall (fun a => Spec.has_comma a = false) (split_comma s).
Proof.
  induction s as [|c r IH]; [repeat constructor|].
  cbn [split_comma].
  destruct (Ascii.eqb c ",") eqn:E.
  - constructor; [reflexivity | exact IH].
  - destruct (split_comma r) as [|h t];
      [repeat constructor; cbn; now rewrite E|].
    inversion IH; subst. constructor; [|assumption].
    cbn. rewrite E. assumption.
Qed.

Lemma split_comma_length (s : string) :
  length (split_comma s) = S (Spec.count_commas s).
Proof.
  induction s as [|c r IH]; [reflexivity|].
  cbn [split_comma Spec.count_commas].
  destruct (Ascii.eqb c ",").
  - cbn. now rewrite IH.
  - destruct (split_comma r) as [|h t]; [discriminate IH|].
    cbn in *. exact IH.
Qed.

End SplitFacts.

(** X12: a configured reply-to list is the value of
    [REPLY_TO_EMAIL_ADDRESSES] cut at its commas and nothing else: joining the
    entries with commas gives the variable back (entries are not trimmed and
    empty entries are kept), no entry holds a comma, and there is one entry
    more than there are commas. *)
Theorem reply_to_list_round_trip (env : ProcessEnv) (s : string) :
  REPLY_TO_EMAIL_ADDRESSES env = Some s ->
  s <> EmptyString ->
  Js.join "," (replierEmailAddresses env) = s
  /\ Forall (fun a => Spec.has_comma a = false) (replierEmailAddresses env)
  /\ length (replierEmailAddresses env) = S (Spec.count_commas s).
Proof.
  intros Hs Hne. unfold replierEmailAddresses. rewrite Hs.
  cbn [env_value Js.truthy].
  apply String.eqb_neq in Hne. rewrite Hne. cbn [negb].
  split; [apply join_split_comma|].
  split; [apply split_comma_no_comma | apply split_comma_length].
Qed.

Lemma reply_to_list_round_trip_witness :
  replierEmailAddresses
    {| RESEND_API_KEY := None; SENDER_EMAIL_ADDRESS := None;
       REPLY_TO_EMAIL_ADDRESSES := Some "a@x.com, b@x.com,," |}
  = ["a@x.com"; " b@x.com"; EmptyString; EmptyString]
  /\ Js.join ","
       (replierEmailAddresses
          {| RESEND_API_KEY := None; SENDER_EMAIL_ADDRESS := None;
             REPLY_TO_EMAIL_ADDRESSES := Some "a@x.com, b@x.com,," |})
     = "a@x.com, b@x.com,,".
Proof.
  split; [reflexivity|].
  apply (reply_to_list_round_trip
           {| RESEND_API_KEY := None; SENDER_EMAIL_ADDRESS := None;
              REPLY_TO_EMAIL_ADDRESSES := Some "a@x.com, b@x.com,," |}
           "a@x.com, b@x.com,," eq_refl).
  discriminate.
Defined.


(* ================================================================= *)
(** ** Further properties: the SSE handlers and the two variants *)

(** X14: the [send-email] handler of the SSE variant checks the types of
    the resolved sender and reply-to before it calls the provider.  A sender
    that is not a string is rejected with [from argument must be provided.],
    a reply-to that is neither a string nor an array with
    [replyTo argument must be provided.], both without a provider call;
    otherwise the provider is called once with these two values, in
    particular with a sender that is the empty string. *)
Theorem sse_send_email_validation
    (env : ProcessEnv) (resend : Resend)
    (args : JsVal) (log : list ProviderCall) :
  Js.nullish args = false ->
  let sender := Js.coalesce (Js.prop args "from") (senderEmailAddress env) in
  let replyTo :=
    Js.coalesce (Js.prop args "replyTo")
      (string_array (replierEmailAddresses env)) in
  (SseServer.not_a_string sender = true ->
   SseServer.send_email env resend args log
   = (Abrupt (NewError "from argument must be provided."), log))
  /\ (SseServer.not_a_string sender = false ->
      SseServer.not_a_string replyTo = true ->
      SseServer.isArray replyTo = false ->
      SseServer.send_email env resend args log
      = (Abrupt (NewError "replyTo argument must be provided."), log))
  /\ (SseServer.not_a_string sender = false ->
      SseServer.not_a_string replyTo = false
      \/ SseServer.isArray replyTo = true ->
      exists emailRequest,
        snd (SseServer.send_email env resend args log)
        = (log ++ [EmailsSend emailRequest])%list
        /\ Js.prop emailRequest "from" = sender
        /\ Js.prop emailRequest "replyTo" = replyTo).
Proof.
  intros Hn sender replyTo.
  split; [|split].
  - intros Hs.
    unfold SseServer.send_email, SseServer.build_emailRequest,
      RequireObjectCoercible, bind, ret, throw.
    rewrite Hn. fold sender. rewrite Hs. reflexivity.
  - intros Hs Hr Ha.
    unfold SseServer.send_email, SseServer.build_emailRequest,
      RequireObjectCoercible, bind, ret, throw.
    rewrite Hn. fold sender. fold replyTo. rewrite Hs, Hr, Ha. reflexivity.
  - intros Hs Hr.
    assert (Hc : SseServer.not_a_string replyTo
                 && negb (SseServer.isArray replyTo) = false).
    { destruct Hr as [-> | ->]; [reflexivity|]. apply andb_false_r. }
    assert (Hb : exists emailRequest,
               SseServer.build_emailRequest env args log
               = (Normal emailRequest, log)
               /\ Js.prop emailRequest "from" = sender
               /\ Js.prop emailRequest "replyTo" = replyTo).
    { unfold SseServer.build_emailRequest, RequireObjectCoercible, bind, ret,
        throw.
      rewrite Hn. fold sender. fold replyTo. rewrite Hs, Hc.
      eexists. split; [reflexivity|].
      unfold set_if_truthy.
      destruct (Js.truthy (Js.prop args "html"));
        destruct (Js.truthy (Js.prop args "scheduledAt"));
        destruct (Js.truthy (Js.prop args "cc"));
        destruct (Js.truthy (Js.prop args "bcc"));
        split; reflexivity. }
    destruct Hb as (emailRequest & Hb & Hfrom & Hreply).
    exists emailRequest. split; [|split; assumption].
    unfold SseServer.send_email. unfold bind at 1. rewrite Hb.
    unfold bind at 1, SseServer.resend_emails_send.
    destruct (emails_send resend emailRequest) as [response|error];
      [|reflexivity].
    rewrite (email_sent_pure response (log ++ [EmailsSend emailRequest])%list
               log).
    reflexivity.
Qed.

Lemma sse_send_email_validation_witness :
  SseServer.send_email Samples.env_bare Samples.accepting Samples.plain_args []
  = (Abrupt (NewError "from argument must be provided."), [])
  /\ (exists emailRequest,
        snd (SseServer.send_email Samples.env_bare Samples.accepting
               Samples.args_empty_from [])
        = [EmailsSend emailRequest]
        /\ Js.prop emailRequest "from" = JStr EmptyString
        /\ Js.prop emailRequest "replyTo" = JArr []).
Proof.
  split.
  - apply (proj1 (sse_send_email_validation Samples.env_bare Samples.accepting
             Samples.plain_args [] eq_refl)).
    reflexivity.
  - apply (proj2 (proj2 (sse_send_email_validation Samples.env_bare
             Samples.accepting Samples.args_empty_from [] eq_refl)));
      [reflexivity | right; reflexivity].
Defined.

(** X15: the two variants agree where both accept the call.  When the
    checks of the SSE handler pass and the resolved sender is not the empty
    string, the JSON-RPC [handleCallTool] for [send-email] with the same
    arguments completes as the SSE handler does, after the same provider call;
    for [list-audiences] the two always complete alike. *)
Theorem variants_agree
    (env : ProcessEnv) (resend : Resend)
    (params : JsVal) (log : list ProviderCall) :
  (forall emailRequest,
      Js.prop params "name" = JStr "send-email" ->
      SseServer.build_emailRequest env (Js.prop params "arguments") log
      = (Normal emailRequest, log) ->
      Js.prop emailRequest "from" <> JStr EmptyString ->
      handleCallTool env resend params log
      = SseServer.send_email env resend (Js.prop params "arguments") log)
  /\ (Js.prop params "name" = JStr "list-audiences" ->
      handleCallTool env resend params log
      = SseServer.list_audiences resend log).
Proof.
  split.
  - intros emailRequest Hname Hb Hne.
    rewrite (handleCallTool_send_email env resend params log Hname).
    unfold SseServer.send_email.
    assert (E : build_emailRequest env (Js.prop params "arguments") log
                = (Normal emailRequest, log)).
    { revert Hb.
      unfold build_emailRequest, SseServer.build_emailRequest,
        RequireObjectCoercible, bind, ret, throw.
      destruct (Js.nullish (Js.prop params "arguments")); [discriminate|].
      destruct (Js.coalesce (Js.prop (Js.prop params "arguments") "from")
                  (senderEmailAddress env)) as [| | | |sender| |] eqn:Hs;
        try discriminate.
      cbn [SseServer.not_a_string].
      destruct (SseServer.not_a_string _ && negb _); [discriminate|].
      intros Hb. injection Hb as Hb.
      assert (Hfrom : Js.prop emailRequest "from" = JStr sender).
      { subst emailRequest. unfold set_if_truthy.
        destruct (Js.truthy (Js.prop (Js.prop params "arguments") "html"));
          destruct (Js.truthy
                      (Js.prop (Js.prop params "arguments") "scheduledAt"));
          destruct (Js.truthy (Js.prop (Js.prop params "arguments") "cc"));
          destruct (Js.truthy (Js.prop (Js.prop params "arguments") "bcc"));
          reflexivity. }
      assert (Ht : Js.truthy (JStr sender) = true).
      { cbn. destruct (String.eqb sender EmptyString) eqn:Ee; [|reflexivity].
        apply String.eqb_eq in Ee. subst sender. now elim Hne. }
      rewrite Ht. cbn [negb]. now rewrite Hb. }
    unfold bind. rewrite E, Hb. reflexivity.
  - intros Hname.
    unfold handleCallTool, RequireObjectCoercible. unfold bind at 1.
    rewrite (prop_string_not_nullish _ _ _ Hname), Hname. reflexivity.
Qed.

Lemma variants_agree_witness :
  handleCallTool Samples.env_with_defaults Samples.rejecting
    (JObj [("name", JStr "send-email"); ("arguments", Samples.args_explicit)])
    []
  = SseServer.send_email Samples.env_with_defaults Samples.rejecting
      Samples.args_explicit []
  /\ handleCallTool Samples.env_with_defaults Samples.rejecting
       (JObj [("name", JStr "list-audiences")]) [AudiencesList]
     = SseServer.list_audiences Samples.rejecting [AudiencesList].
Proof.
  split.
  - apply (proj1 (variants_agree Samples.env_with_defaults Samples.rejecting
             (JObj [("name", JStr "send-email");
                    ("arguments", Samples.args_explicit)]) [])
             _ eq_refl eq_refl).
    discriminate.
  - apply (proj2 (variants_agree Samples.env_with_defaults Samples.rejecting
             (JObj [("name", JStr "list-audiences")]) [AudiencesList])).
    reflexivity.
Defined.

(* ================================================================= *)
(** ** Further properties: messages *)

Lemma handleCallTool_unknown_outcome
    (env : ProcessEnv) (resend : Resend)
    (params : JsVal) (log : list ProviderCall) :
  Js.nullish params = false ->
  Js.prop params "name" <> JStr "send-email" ->
  Js.prop params "name" <> JStr "list-audiences" ->
  handleCallTool env resend params log
  = match Js.ToString (Js.prop params "name") with
    | Some shown => (Abrupt (NewError ("Unknown tool: " ++ shown)), log)
    | None => (Abrupt (TypeError (NotPrimitive (Js.prop params "name"))), log)
    end.
Proof.
  intros Hn N1 N2.
  unfold handleCallTool, RequireObjectCoercible, template, bind, ret, throw.
  rewrite Hn, (is_string_false _ _ N1), (is_string_false _ _ N2).
  destruct (Js.ToString (Js.prop params "name")); reflexivity.
Qed.

(** X16: the message for an unknown tool is built with the string
    conversion of a template literal, so it is defined for any [name]: a
    [params] object without [name] gives [Unknown tool: undefined], and a
    [name] that cannot be converted (an object with its own [toString]) gives
    the runtime's TypeError; both are error -32603 without a provider call. *)
Theorem unknown_tool_name_is_converted
    (env : ProcessEnv) (resend : Resend)
    (TypeError_message : TypeErrorCause -> string)
    (request : JsVal) (log : list ProviderCall) :
  Js.prop request "method" = JStr "tools/call" ->
  Js.nullish (Js.prop request "params") = false ->
  let name := Js.prop (Js.prop request "params") "name" in
  name <> JStr "send-email" ->
  name <> JStr "list-audiences" ->
  (forall shown,
      Js.ToString name = Some shown ->
      handleRequest env resend TypeError_message request log
      = (Normal (error_response (-32603) (JStr ("Unknown tool: " ++ shown))
                   (Js.prop request "id")), log))
  /\ (name = JUndefined ->
      handleRequest env resend TypeError_message request log
      = (Normal (error_response (-32603) (JStr "Unknown tool: undefined")
                   (Js.prop request "id")), log))
  /\ (Js.ToString name = None ->
      handleRequest env resend TypeError_message request log
      = (Normal (Spec.caught TypeError_message request
                   (TypeError (NotPrimitive name))), log)).
Proof.
  intros Hm Hn name N1 N2.
  rewrite (handleRequest_tools_call env resend TypeError_message request log Hm).
  rewrite (handleCallTool_unknown_outcome env resend _ log Hn N1 N2).
  fold name. split; [|split].
  - intros shown Hs. rewrite Hs. reflexivity.
  - intros Hu. rewrite Hu. reflexivity.
  - intros Hs. rewrite Hs. reflexivity.
Qed.

Lemma unknown_tool_name_is_converted_witness :
  handleRequest Samples.env_bare Samples.accepting Samples.TypeError_message
    (Samples.request "tools/call" (JObj [("arguments", Samples.plain_args)])
       (JNum 1)) []
  = (Normal (error_response (-32603) (JStr "Unknown tool: undefined")
               (JNum 1)), [])
  /\ handleRequest Samples.env_bare Samples.accepting Samples.TypeError_message
       (Samples.request "tools/call"
          (JObj [("name", JArr [JNum 1; JNull; JStr "x"])]) (JNum 1)) []
     = (Normal (error_response (-32603) (JStr "Unknown tool: 1,,x")
                  (JNum 1)), [])
  /\ handleRequest Samples.env_bare Samples.accepting Samples.TypeError_message
       (Samples.request "tools/call"
          (JObj [("name", JNum 1000000000000000000000)]) (JNum 1)) []
     = (Normal (error_response (-32603) (JStr "Unknown tool: 1e+21")
                  (JNum 1)), []).
Proof.
  split; [|split].
  - apply (proj1 (proj2 (unknown_tool_name_is_converted Samples.env_bare
             Samples.accepting Samples.TypeError_message
             (Samples.request "tools/call"
                (JObj [("arguments", Samples.plain_args)]) (JNum 1)) []
             eq_refl eq_refl ltac:(discriminate) ltac:(discriminate))));
      reflexivity.
  - apply (proj1 (unknown_tool_name_is_converted Samples.env_bare
             Samples.accepting Samples.TypeError_message
             (Samples.request "tools/call"
                (JObj [("name", JArr [JNum 1; JNull; JStr "x"])]) (JNum 1)) []
             eq_refl eq_refl ltac:(discriminate) ltac:(discriminate)));
      reflexivity.
  - apply (proj1 (unknown_tool_name_is_converted Samples.env_bare
             Samples.accepting Samples.TypeError_message
             (Samples.request "tools/call"
                (JObj [("name", JNum 1000000000000000000000)]) (JNum 1)) []
             eq_refl eq_refl ltac:(discriminate) ltac:(discriminate)));
      vm_compute; reflexivity.
Defined.

Section StringFacts.

Lemma prefix_app_l (sub a b : string) :
  String.prefix sub a = true -> String.prefix sub (a ++ b) = true.
Proof.
  revert a. induction sub as [|c sub IH]; intros a H;
    [destruct (a ++ b); reflexivity|].
  destruct a as [|c' a]; [discriminate|].
  cbn in *. destruct (ascii_dec c c'); [auto | discriminate].
Qed.

Lemma contains_app_l (sub a b : string) :
  Spec.contains sub a = true -> Spec.contains sub (a ++ b) = true.
Proof.
  induction a as [|c a IH]; cbn [Spec.contains]; intros H.
  - rewrite orb_false_r in H.
    apply contains_prefix. now apply prefix_app_l.
  - apply orb_true_iff in H. destruct H as [H|H].
    + apply contains_prefix. now apply prefix_app_l.
    + cbn [append Spec.contains]. rewrite (IH H). apply orb_true_r.
Qed.

Lemma contains_app_r (sub a b : string) :
  Spec.contains sub b = true -> Spec.contains sub (a ++ b) = true.
Proof.
  intros H. induction a as [|c a IH]; [exact H|].
  cbn [append Spec.contains]. rewrite IH. apply orb_true_r.
Qed.

Lemma contains_refl (s : string) : Spec.contains s s = true.
Proof. apply contains_prefix, prefix_refl. Qed.

Lemma contains_join (sub sep x : string) (l : list string) :
  In x l -> Spec.contains sub x = true ->
  Spec.contains sub (Js.join sep l) = true.
Proof.
  intros Hin Hc. induction l as [|y r IH]; [contradiction|].
  destruct r as [|z r'].
  - destruct Hin as [->|[]]. exact Hc.
  - change (Js.join sep (y :: z :: r'))
      with (y ++ sep ++ Js.join sep (z :: r')).
    destruct Hin as [->|Hin].
    + now apply contains_app_l.
    + apply contains_app_r, contains_app_r, IH, Hin.
Qed.

(** A member of an object shows in its serialization. *)
Lemma stringify_member (sub k s : string) (v : JsVal)
    (ps : list (string * JsVal)) :
  In (k, v) ps ->
  Js.JSON_stringify v = Some s ->
  Spec.contains sub (Js.QuoteJSONString k ++ ":" ++ s) = true ->
  exists out,
    Js.JSON_stringify (JObj ps) = Some out
    /\ Spec.contains sub out = true.
Proof.
  intros Hin Hs Hc. cbn [Js.JSON_stringify].
  eexists. split; [reflexivity|].
  apply contains_app_r, contains_app_l.
  apply contains_join with (x := Js.QuoteJSONString k ++ ":" ++ s); [|exact Hc].
  induction ps as [|[k' v'] r IH]; [contradiction|].
  destruct Hin as [E|Hin].
  - injection E as -> ->. rewrite Hs. now left.
  - destruct (Js.JSON_stringify v'); [right|]; now apply IH.
Qed.

Lemma escape_char_plain (c : ascii) :
  Spec.plain_char c = true -> Js.escape_char c = String c EmptyString.
Proof.
  unfold Spec.plain_char, Js.escape_char. cbv zeta.
  intros H. apply andb_true_iff in H. destruct H as [H H92].
  apply andb_true_iff in H. destruct H as [H32 H34].
  apply negb_true_iff in H32, H34, H92.
  rewrite H34, H92, H32.
  apply Nat.ltb_ge in H32.
  repeat match goal with
         | |- context [Nat.eqb ?n ?m] =>
             destruct (Nat.eqb n m) eqn:?;
             [match goal with
              | E : Nat.eqb _ _ = true |- _ => apply Nat.eqb_eq in E; lia
              end|]
         end.
  reflexivity.
Qed.

Lemma escape_plain (s : string) : Spec.plain s = true -> Js.escape s = s.
Proof.
  induction s as [|c r IH]; [reflexivity|].
  cbn [Spec.plain Js.escape]. intros H.
  apply andb_true_iff in H. destruct H as [Hc Hr].
  rewrite (escape_char_plain c Hc), (IH Hr). reflexivity.
Qed.

End StringFacts.

(** X17: when the provider's send operation returns an error object that
    has a string [message], the JSON-RPC error message holds that message in
    its JSON-quoted form; a message without control characters, double quotes
    and backslashes is held as it is. *)
Theorem provider_message_is_reported
    (env : ProcessEnv) (resend : Resend)
    (TypeError_message : TypeErrorCause -> string)
    (request : JsVal) (log : list ProviderCall)
    (emailRequest response : JsVal)
    (fields : list (string * JsVal)) (m : string) :
  Js.prop request "method" = JStr "tools/call" ->
  Js.prop (Js.prop request "params") "name" = JStr "send-email" ->
  build_emailRequest env
    (Js.prop (Js.prop request "params") "arguments") log
  = (Normal emailRequest, log) ->
  emails_send resend emailRequest = Normal response ->
  Js.prop response "error" = JObj fields ->
  In ("message", JStr m) fields ->
  exists message,
    handleRequest env resend TypeError_message request log
    = (Normal (error_response (-32603) (JStr message) (Js.prop request "id")),
       (log ++ [EmailsSend emailRequest])%list)
    /\ Spec.contains (Js.QuoteJSONString m) message = true
    /\ (Spec.plain m = true -> Spec.contains m message = true).
Proof.
  intros Hm Hname Hb Hs He Hin.
  destruct (handleRequest_send_email env resend TypeError_message
              request log emailRequest Hm Hname Hb) as (_ & Hret & _).
  assert (Ht : Js.truthy (Js.prop response "error") = true)
    by now rewrite He.
  rewrite (Hret response Hs), (email_sent_error response log Ht), He.
  destruct (stringify_member (Js.QuoteJSONString m) "message"
              (Js.QuoteJSONString m) (JStr m) fields Hin eq_refl)
    as (out & Hout & Hc).
  { apply contains_app_r, contains_app_r, contains_refl. }
  rewrite Hout. eexists. split; [reflexivity|].
  split; [now apply contains_app_r|].
  intros Hp.
  destruct (stringify_member m "message" (Js.QuoteJSONString m) (JStr m)
              fields Hin eq_refl) as (out' & Hout' & Hc').
  { apply contains_app_r, contains_app_r.
    unfold Js.QuoteJSONString. rewrite (escape_plain m Hp).
    cbn [Spec.contains]. rewrite (contains_app_l m m _ (contains_refl m)).
    apply orb_true_r. }
  rewrite Hout in Hout'. injection Hout' as <-.
  cbn [Js.interpolate]. now apply contains_app_r.
Qed.

Lemma provider_message_is_reported_witness :
  exists message,
    handleRequest Samples.env_with_defaults Samples.rejecting
      Samples.TypeError_message
      (Samples.tools_call "send-email" Samples.plain_args (JNum 3)) []
    = (Normal (error_response (-32603) (JStr message) (JNum 3)),
       [EmailsSend
          (JObj [("to", JStr "a@b.com"); ("subject", JStr "hi");
                 ("text", JStr "hello");
                 ("from", JStr "noreply@example.com");
                 ("replyTo", JArr [JStr "help@example.com";
                                   JStr "ops@example.com"])])])
    /\ Spec.contains (Js.QuoteJSONString "bad") message = true
    /\ (Spec.plain "bad" = true -> Spec.contains "bad" message = true).
Proof.
  apply (provider_message_is_reported Samples.env_with_defaults
           Samples.rejecting Samples.TypeError_message
           (Samples.tools_call "send-email" Samples.plain_args (JNum 3)) []
           _ (JObj [("error", JObj [("message", JStr "bad")])])
           [("message", JStr "bad")] "bad"
           eq_refl eq_refl eq_refl eq_refl eq_refl (or_introl eq_refl)).
Defined.

(* ================================================================= *)
(** ** Further properties: the shape of what is sent *)

(** X18: the [emailRequest] of a validated [send-email] call has the five
    properties [to], [subject], [text], [from], [replyTo], followed by those
    of [html], [scheduledAt], [cc], [bcc] whose argument is truthy, in this
    order, and no other: any further argument of the call is dropped. *)
Theorem emailRequest_has_known_properties_only
    (env : ProcessEnv) (args emailRequest : JsVal)
    (log : list ProviderCall) :
  build_emailRequest env args log = (Normal emailRequest, log) ->
  Spec.keys emailRequest
  = (["to"; "subject"; "text"; "from"; "replyTo"]
     ++ filter (fun k => Js.truthy (Js.prop args k))
          ["html"; "scheduledAt"; "cc"; "bcc"])%list.
Proof.
  unfold build_emailRequest, RequireObjectCoercible, bind, ret, throw.
  destruct (Js.nullish args); [discriminate|].
  destruct (negb _); [discriminate|].
  intros H. injection H as <-.
  unfold set_if_truthy. cbn [filter].
  destruct (Js.truthy (Js.prop args "html"));
    destruct (Js.truthy (Js.prop args "scheduledAt"));
    destruct (Js.truthy (Js.prop args "cc"));
    destruct (Js.truthy (Js.prop args "bcc"));
    reflexivity.
Qed.

Lemma emailRequest_has_known_properties_only_witness :
  Spec.keys
    (JObj [("to", JStr "a@b.com"); ("subject", JStr "hi");
           ("text", JStr "hello"); ("from", JStr "noreply@example.com");
           ("replyTo", JArr []); ("cc", JArr [JStr "c@b.com"])])
  = ["to"; "subject"; "text"; "from"; "replyTo"; "cc"].
Proof.
  apply (emailRequest_has_known_properties_only Samples.env_sender_only
           (JObj [("headers", JObj [("X-Tag", JStr "t")]);
                  ("cc", JArr [JStr "c@b.com"]); ("text", JStr "hello");
                  ("subject", JStr "hi"); ("to", JStr "a@b.com");
                  ("attachments", JArr [])])
           _ []).
  reflexivity.
Defined.

(** X19: a request without [id] is answered all the same.  Whenever
    [handleRequest] returns on such a request, which it does when whatever the
    provider throws has a [message] that can be read, the response object has
    an [id] that is [undefined], and the JSON text that the [POST /mcp] route
    writes for it, with status 200, has no [id] member. *)
Theorem response_to_request_without_id
    (env : ProcessEnv) (resend : Resend)
    (TypeError_message : TypeErrorCause -> string)
    (req_body : JsVal) (log : list ProviderCall) :
  Js.nullish req_body = false ->
  Js.prop req_body "id" = JUndefined ->
  (forall response log',
      handleRequest env resend TypeError_message req_body log
      = (Normal response, log') ->
      exists member,
        HttpBridge.post_mcp env resend TypeError_message req_body log
        = (Normal (HttpBridge.res_json response), log')
        /\ HttpBridge.status (HttpBridge.res_json response) = 200%Z
        /\ response
           = JObj [("jsonrpc", JStr "2.0"); member; ("id", JUndefined)]
        /\ Js.JSON_stringify response
           = Js.JSON_stringify (JObj [("jsonrpc", JStr "2.0"); member]))
  /\ (Spec.throws_readable resend ->
      exists response log',
        handleRequest env resend TypeError_message req_body log
        = (Normal response, log')).
Proof.
  intros Hn Hid. split.
  - intros response log' E.
    destruct (handleRequest_shape env resend TypeError_message req_body log
                response log' Hn E) as (member & -> & _).
    exists member. rewrite Hid.
    split; [|split; [reflexivity|split; [reflexivity|]]].
    + unfold HttpBridge.post_mcp, try_catch, bind at 1.
      rewrite E, Hid. reflexivity.
    + destruct member as [k v]. cbn [Js.JSON_stringify].
      destruct (Js.JSON_stringify v); reflexivity.
  - intros Hthrows.
    exact (handleRequest_answers env resend TypeError_message req_body log
             Hthrows Hn).
Qed.

Lemma response_to_request_without_id_witness :
  exists member,
    HttpBridge.post_mcp Samples.env_bare Samples.accepting
      Samples.TypeError_message
      (JObj [("jsonrpc", JStr "2.0"); ("method", JStr "notifications/initialized")])
      []
    = (Normal
         (HttpBridge.res_json
            (error_response (-32601) (JStr "Method not found") JUndefined)),
       [])
    /\ HttpBridge.status
         (HttpBridge.res_json
            (error_response (-32601) (JStr "Method not found") JUndefined))
       = 200%Z
    /\ error_response (-32601) (JStr "Method not found") JUndefined
       = JObj [("jsonrpc", JStr "2.0"); member; ("id", JUndefined)]
    /\ Js.JSON_stringify
         (error_response (-32601) (JStr "Method not found") JUndefined)
       = Js.JSON_stringify (JObj [("jsonrpc", JStr "2.0"); member]).
Proof.
  apply (proj1 (response_to_request_without_id Samples.env_bare
           Samples.accepting Samples.TypeError_message
           (JObj [("jsonrpc", JStr "2.0");
                  ("method", JStr "notifications/initialized")]) []
           eq_refl eq_refl)).
  reflexivity.
Defined.
